(** * Expense form: validation and controller

    A shallow embedding of [src/components/ExpenseForm/ExpenseForm.tsx]:
    the validator [validateExpenseForm], the two event handlers
    [handleInputChange] and [handleSubmit], and the pieces of the
    JavaScript runtime they call ([String.prototype.trim], [parseFloat],
    [isNaN], the comparison [<= 0], truthiness of strings, object
    property reads and writes). *)

From Stdlib Require Import ZArith NArith QArith Ascii String List Bool Lia.
From Stdlib Require Import SpecFloat.
From stdpp Require Import gmap strings list fin_maps.

Local Open Scope N_scope.

(** ** JavaScript strings

    A JavaScript string is a sequence of UTF-16 code units. Property names
    and the literals of the program are ASCII and written as Rocq strings;
    [JS] turns such a literal into its code units. *)

Definition jsstring : Type := list N.

Definition JS (s : string) : jsstring :=
  map N_of_ascii (list_ascii_of_string s).

(** The code units removed by [trim] and skipped by [parseFloat]: ECMAScript
    WhiteSpace (TAB, VT, FF, SP, NBSP, ZWNBSP and the Unicode space
    separators) and LineTerminator (LF, CR, LS, PS). *)
Definition is_whitespace (c : N) : bool :=
  (c =? 9) || (c =? 10) || (c =? 11) || (c =? 12) || (c =? 13) || (c =? 32)
  || (c =? 160) || (c =? 5760) || ((8192 <=? c) && (c <=? 8202))
  || (c =? 8232) || (c =? 8233) || (c =? 8239) || (c =? 8287)
  || (c =? 12288) || (c =? 65279).

Fixpoint trimStart (s : jsstring) : jsstring :=
  match s with
  | c :: s' => if is_whitespace c then trimStart s' else s
  | [] => []
  end.

Definition trimEnd (s : jsstring) : jsstring := rev (trimStart (rev s)).

(** [s.trim()] *)
Definition trim (s : jsstring) : jsstring := trimEnd (trimStart s).

(** White space only, the empty text included. *)
Definition is_blank (s : jsstring) : bool := forallb is_whitespace s.

(** Truthiness of a string: only the empty string is falsy. *)
Definition truthy_string (s : jsstring) : bool :=
  match s with [] => false | _ :: _ => true end.

(** ** JavaScript numbers

    A Number is an IEEE 754 binary64 value: [spec_float] at precision 53
    and maximal exponent 1024. *)

Definition prec : Z := 53.
Definition emax : Z := 1024.

Definition number : Type := spec_float.

(** [isNaN(x)] on a Number. *)
Definition isNaN (x : number) : bool :=
  match x with S754_nan => true | _ => false end.

(** [x <= 0]: false on NaN, true on both zeros. *)
Definition le_zero (x : number) : bool := SFleb x (S754_zero false).

(** The exact rational value of a finite Number, in lowest terms (none for
    NaN and the infinities). *)
Definition number_value (x : number) : option Q :=
  match x with
  | S754_zero _ => Some 0%Q
  | S754_finite s m e =>
      let v := if s then Z.neg m else Z.pos m in
      Some (Qred (match e with
                  | Z.neg p => Qmake v (2 ^ p)
                  | _ => Qmake (v * 2 ^ e) 1
                  end))
  | _ => None
  end.

(** [x] is a Number at most zero: minus infinity, a zero, or a negative
    finite value. *)
Definition number_le_zero (x : number) : Prop :=
  x = S754_infinity true \/ exists q, number_value x = Some q /\ (q <= 0)%Q.

(** [x] is a positive Number: plus infinity or a positive finite value. *)
Definition number_positive (x : number) : Prop :=
  x = S754_infinity false \/ exists q, number_value x = Some q /\ (0 < q)%Q.

(** The Number nearest to [m * 10^e] (ties to even): an integer is rounded
    as it is; a quotient by a power of ten is developed to the precision of
    the format, its remainder deciding the rounding direction. *)
Definition round_decimal (neg : bool) (m : Z) (e : Z) : number :=
  match m with
  | Z.pos p =>
      match e with
      | Z.neg k =>
          let '(q, e', l) :=
            SFdiv_core_binary prec emax (Z.pos p) 0 (10 ^ Z.pos k)%Z 0 in
          binary_round_aux prec emax neg q e' l
      | _ => binary_normalize prec emax
               (if neg then - (Z.pos p * 10 ^ e) else Z.pos p * 10 ^ e)%Z 0 neg
      end
  | _ => S754_zero neg
  end.

(** ** [parseFloat]

    ECMAScript: skip leading white space, take the longest prefix that is a
    StrDecimalLiteral, return NaN when there is none, otherwise the Number
    value of that prefix. Whatever follows the prefix is ignored. *)

Definition is_digit (c : N) : bool := (48 <=? c) && (c <=? 57).

Definition digit_value (c : N) : Z := Z.of_N c - 48.

(** DecimalDigits: the digits at the head of [s], and what follows them. *)
Fixpoint scan_digits (s : jsstring) : list N * jsstring :=
  match s with
  | c :: s' =>
      if is_digit c
      then let '(ds, r) := scan_digits s' in (c :: ds, r)
      else ([], s)
  | [] => ([], [])
  end.

Definition digits_value (ds : list N) : Z :=
  fold_left (fun acc c => (10 * acc + digit_value c)%Z) ds 0%Z.

Definition is_exponent_indicator (c : N) : bool := (c =? 101) || (c =? 69).

Definition plus_sign : N := 43.
Definition minus_sign : N := 45.
Definition dot : N := 46.

(** ExponentPart at the head of [s], when there is one: its value, and [0]
    otherwise (an [e] that no digit follows does not belong to the literal). *)
Definition parse_exponent (s : jsstring) : Z :=
  match s with
  | c :: s1 =>
      if is_exponent_indicator c then
        match s1 with
        | sg :: s2 =>
            if sg =? plus_sign then digits_value (fst (scan_digits s2))
            else if sg =? minus_sign then
              (- digits_value (fst (scan_digits s2)))%Z
            else digits_value (fst (scan_digits s1))
        | [] => 0%Z
        end
      else 0%Z
  | [] => 0%Z
  end.

Fixpoint starts_with (p s : jsstring) : bool :=
  match p, s with
  | [], _ => true
  | a :: p', b :: s' => (a =? b) && starts_with p' s'
  | _ :: _, [] => false
  end.

(** StrUnsignedDecimalLiteral:
    [Infinity], [digits . digits? exp?], [. digits exp?] or [digits exp?]. *)
Definition parse_unsigned (neg : bool) (s : jsstring) : number :=
  if starts_with (JS "Infinity") s then S754_infinity neg
  else
    let '(ip, r1) := scan_digits s in
    match r1 with
    | c :: r2 =>
        if c =? dot then
          let '(fp, r3) := scan_digits r2 in
          match ip ++ fp with
          | [] => S754_nan
          | ds => round_decimal neg (digits_value ds)
                    (parse_exponent r3 - Z.of_nat (length fp))
          end
        else
          match ip with
          | [] => S754_nan
          | _ => round_decimal neg (digits_value ip) (parse_exponent r1)
          end
    | [] =>
        match ip with
        | [] => S754_nan
        | _ => round_decimal neg (digits_value ip) 0
        end
    end.

Definition parseFloat (s : jsstring) : number :=
  match trimStart s with
  | c :: r =>
      if c =? plus_sign then parse_unsigned false r
      else if c =? minus_sign then parse_unsigned true r
      else parse_unsigned false (c :: r)
  | [] => S754_nan
  end.

(** The code units a StrDecimalLiteral is made of. *)
Definition is_literal_char (c : N) : bool :=
  is_digit c || (c =? dot) || is_exponent_indicator c
  || (c =? plus_sign) || (c =? minus_sign)
  || bool_decide (c ∈ JS "Infinity").

(** Currency symbols: the dollar sign, the Latin-1 signs for cent, pound,
    currency and yen, and the Unicode block Currency Symbols. *)
Definition is_currency_symbol (c : N) : bool :=
  (c =? 36) || ((162 <=? c) && (c <=? 165)) || ((8352 <=? c) && (c <=? 8384)).

(** Grouping separators: comma, apostrophe, underscore. *)
Definition is_grouping_separator (c : N) : bool :=
  (c =? 44) || (c =? 39) || (c =? 95).

(** ** Objects of the form

    The values the form stores in its objects are strings and [undefined].
    An object with string keys is a finite map; a key may be present and
    hold [undefined], which is what [{...prev, [name]: undefined}] leaves
    behind. *)

Inductive jsval : Type :=
| JUndefined
| JString (s : jsstring).

#[global] Instance jsval_eq_dec : EqDecision jsval.
Proof. solve_decision. Defined.

(** Truthiness: [undefined] and the empty string are falsy. *)
Definition truthy (v : jsval) : bool :=
  match v with
  | JUndefined => false
  | JString s => truthy_string s
  end.

(** [interface FormErrors]: every property optional. *)
Abbreviation FormErrors := (gmap string jsval).

(** The property read [o[k]]: [undefined] for a missing key. *)
Definition get (o : FormErrors) (k : string) : jsval :=
  default JUndefined (o !! k).

(** [Object.keys(o)], up to order. *)
Definition Object_keys (o : FormErrors) : list string := (map_to_list o).*1.

(** [interface ExpenseFormData]. [ExpenseCategory] is a union of string
    literal types, erased at run time: the record holds the string the
    select element delivered. *)
Record ExpenseFormData : Type := {
  description : jsstring;
  amount : jsstring;
  category : jsstring;
  date : jsstring
}.

(** [type ExpenseCategory = 'Food' | 'Transportation' | 'Entertainment' | 'Other'] *)
Definition ExpenseCategory : list jsstring :=
  [JS "Food"; JS "Transportation"; JS "Entertainment"; JS "Other"].

(** The argument of [props.onSubmit]. *)
Record ExpenseData : Type := {
  exp_description : jsstring;
  exp_amount : number;
  exp_category : jsstring;
  exp_date : jsstring
}.

(** The names of the four inputs of the form. *)
Definition field_names : list string :=
  ["description"; "amount"; "category"; "date"]%string.

(** [data[name]] *)
Definition get_field (name : string) (data : ExpenseFormData) : jsval :=
  if decide (name = "description"%string) then JString (description data)
  else if decide (name = "amount"%string) then JString (amount data)
  else if decide (name = "category"%string) then JString (category data)
  else if decide (name = "date"%string) then JString (date data)
  else JUndefined.

(** [{...prev, [name]: value}]. A name outside the interface would add a
    property that no code of the form reads; the four fields stay. *)
Definition set_field (name : string) (value : jsstring)
    (prev : ExpenseFormData) : ExpenseFormData :=
  if decide (name = "description"%string) then
    {| description := value; amount := amount prev;
       category := category prev; date := date prev |}
  else if decide (name = "amount"%string) then
    {| description := description prev; amount := value;
       category := category prev; date := date prev |}
  else if decide (name = "category"%string) then
    {| description := description prev; amount := amount prev;
       category := value; date := date prev |}
  else if decide (name = "date"%string) then
    {| description := description prev; amount := amount prev;
       category := category prev; date := value |}
  else prev.

(** ** The validator *)

Record ValidationResult : Type := {
  isValid : bool;
  errors : FormErrors
}.

Definition description_message : jsstring := JS "Description is required".
Definition amount_message : jsstring := JS "Amount must be a positive number".
Definition category_message : jsstring := JS "Category is required".
Definition date_message : jsstring := JS "Date is required".

Definition validateExpenseForm (data : ExpenseFormData) : ValidationResult :=
  let validationErrors : FormErrors := ∅ in
  let validationErrors :=
    if negb (truthy_string (trim (description data)))
    then <["description"%string := JString description_message]> validationErrors
    else validationErrors in
  let amount' := parseFloat (amount data) in
  let validationErrors :=
    if isNaN amount' || le_zero amount'
    then <["amount"%string := JString amount_message]> validationErrors
    else validationErrors in
  let validationErrors :=
    if negb (truthy_string (category data))
    then <["category"%string := JString category_message]> validationErrors
    else validationErrors in
  let validationErrors :=
    if negb (truthy_string (date data))
    then <["date"%string := JString date_message]> validationErrors
    else validationErrors in
  {| isValid := (length (Object_keys validationErrors) =? 0)%nat;
     errors := validationErrors |}.

(** ** The controller

    The component owns the two pieces of React state and is given the
    callback [onSubmit]; the calls made to the callback are recorded in
    order. Each event is handled to completion on the current state. *)

Record Component : Type := {
  st_formData : ExpenseFormData;
  st_errors : FormErrors;
  st_submitted : list ExpenseData
}.

Definition M (A : Type) : Type := Component -> A * Component.

#[global] Instance M_ret : MRet M := λ A x s, (x, s).
#[global] Instance M_bind : MBind M :=
  λ A B f m s, let '(a, s') := m s in f a s'.

Definition read_formData : M ExpenseFormData := λ s, (st_formData s, s).
Definition read_errors : M FormErrors := λ s, (st_errors s, s).

Definition setFormData (f : ExpenseFormData -> ExpenseFormData) : M unit :=
  λ s, (tt, {| st_formData := f (st_formData s); st_errors := st_errors s;
               st_submitted := st_submitted s |}).

Definition setErrors (f : FormErrors -> FormErrors) : M unit :=
  λ s, (tt, {| st_formData := st_formData s; st_errors := f (st_errors s);
               st_submitted := st_submitted s |}).

Definition onSubmit (expenseData : ExpenseData) : M unit :=
  λ s, (tt, {| st_formData := st_formData s; st_errors := st_errors s;
               st_submitted := st_submitted s ++ [expenseData] |}).

(** The state a handler leaves. *)
Definition exec {A : Type} (m : M A) (s : Component) : Component := (m s).2.

(** The form as [useState] initialises it and as a successful submit
    resets it; [today] is what [new Date().toISOString().split('T')[0]]
    gives at that moment. *)
Definition initial_formData (today : jsstring) : ExpenseFormData :=
  {| description := JS ""; amount := JS ""; category := JS "Food";
     date := today |}.

Definition initial_state (today : jsstring) : Component :=
  {| st_formData := initial_formData today; st_errors := ∅;
     st_submitted := [] |}.

(** [handleInputChange], on the [name] and [value] of the event's target. *)
Definition handleInputChange (name : string) (value : jsstring) : M unit :=
  errors ← read_errors;
  setFormData (λ prev, set_field name value prev);;
  if truthy (get errors name)
  then setErrors (λ prev, <[name := JUndefined]> prev)
  else mret tt.

(** [handleSubmit] *)
Definition handleSubmit (today : jsstring) : M unit :=
  formData ← read_formData;
  let validation := validateExpenseForm formData in
  if negb (isValid validation) then
    setErrors (λ _, errors validation)
  else
    setErrors (λ _, ∅);;
    onSubmit {| exp_description := trim (description formData);
                exp_amount := parseFloat (amount formData);
                exp_category := category formData;
                exp_date := date formData |};;
    setFormData (λ _, initial_formData today).

(** The events of the form, and the states the form can be in. *)
Inductive event : Type :=
| Change (name : string) (value : jsstring)
| Submit (today : jsstring).

Definition handle (e : event) : M unit :=
  match e with
  | Change name value => handleInputChange name value
  | Submit today => handleSubmit today
  end.

Inductive reachable : Component -> Prop :=
| reachable_initial today : reachable (initial_state today)
| reachable_step s e : reachable s -> reachable (exec (handle e) s).

(** ** The four field rules, as [validateExpenseForm] tests them *)

Definition rule_failed (name : string) (data : ExpenseFormData) : bool :=
  if decide (name = "description"%string) then
    negb (truthy_string (trim (description data)))
  else if decide (name = "amount"%string) then
    isNaN (parseFloat (amount data)) || le_zero (parseFloat (amount data))
  else if decide (name = "category"%string) then
    negb (truthy_string (category data))
  else if decide (name = "date"%string) then
    negb (truthy_string (date data))
  else false.

Definition message_of (name : string) : jsstring :=
  if decide (name = "description"%string) then description_message
  else if decide (name = "amount"%string) then amount_message
  else if decide (name = "category"%string) then category_message
  else date_message.

(** The two kinds of failure of the specification, read off the message. *)
Inductive ErrorKind : Type := Required | InvalidAmount.

Definition kind_of_message (msg : jsstring) : option ErrorKind :=
  if decide (msg = amount_message) then Some InvalidAmount
  else if decide (msg = description_message) then Some Required
  else if decide (msg = category_message) then Some Required
  else if decide (msg = date_message) then Some Required
  else None.

(** The kind of error the map [o] reports for the field [name]. *)
Definition error_kind (o : FormErrors) (name : string) : option ErrorKind :=
  match get o name with
  | JString msg => kind_of_message msg
  | JUndefined => None
  end.

(** The category rule in the words of the specification: empty, or not one
    of the enumerated categories. *)
Definition spec_category_rule_failed (data : ExpenseFormData) : bool :=
  negb (truthy_string (category data))
  || negb (bool_decide (category data ∈ ExpenseCategory)).

(** Every message the form holds is the message of a rule that the current
    draft fails. *)
Definition errors_justified (s : Component) : Prop :=
  forall name msg,
    get (st_errors s) name = JString msg ->
    rule_failed name (st_formData s) = true /\ msg = message_of name.

(** ** Runs of the form, and what the sink is given *)

(** The events [es] handled one after the other, each to completion. *)
Definition run (es : list event) (s : Component) : Component :=
  fold_left (λ s e, exec (handle e) s) es s.

Definition is_Submit (e : event) : bool :=
  match e with Submit _ => true | Change _ _ => false end.

(** The number of submit events among [es]. *)
Definition submits (es : list event) : nat :=
  length (List.filter is_Submit es).

(** What [handleSubmit] promises about its argument to [onSubmit] (the data
    is guaranteed valid): a description that is not empty and carries no
    white space at either end, an amount that is a positive Number, a
    category and a date that are not empty. *)
Definition submitted_ok (r : ExpenseData) : Prop :=
  exp_description r <> []
  /\ trim (exp_description r) = exp_description r
  /\ number_positive (exp_amount r)
  /\ exp_category r <> []
  /\ exp_date r <> [].

(** ** What the form renders

    The returned JSX, as far as the state decides it: for each of the four
    fields the control (an input or the select) with the attributes the
    source gives it, its class name as the list of its class tokens, and the
    error span that follows it, [errors.f && <span ...>{errors.f}</span>],
    which React renders only for a truthy [errors.f]. *)

Record Control : Type := {
  ctl_tag : string;
  ctl_type : option string;
  ctl_name : string;
  ctl_value : jsstring;
  ctl_classes : list string;
  ctl_options : list jsstring
}.

Record ErrorSpan : Type := {
  span_classes : list string;
  span_text : jsstring
}.

Record FieldView : Type := {
  fv_label : string;
  fv_control : Control;
  fv_error : option ErrorSpan
}.

(** The tokens every control has. *)
Definition base_classes : list string :=
  ["w-full"; "px-3"; "py-2.5"; "rounded-md"; "text-sm"; "sm:text-base";
   "bg-white"; "text-gray-700"; "placeholder-gray-400"; "border";
   "transition-colors"; "duration-200"; "focus:outline-none";
   "focus:ring-2"]%string.

(** The tokens of the first branch of the conditional in the class name. *)
Definition invalid_classes : list string :=
  ["border-red-500"; "focus:border-red-500"; "focus:ring-red-500";
   "focus:ring-opacity-10"]%string.

(** The tokens of its second branch. *)
Definition normal_classes : list string :=
  ["border-gray-300"; "hover:border-indigo-600"; "focus:border-indigo-600";
   "focus:ring-indigo-600"; "focus:ring-opacity-10"]%string.

(** The class name of each of the four controls: the source tests
    [errors.description] in all four. *)
Definition control_classes (errors : FormErrors) : list string :=
  base_classes
  ++ (if truthy (get errors "description") then invalid_classes
      else normal_classes).

(** [v && <span className=...>{v}</span>] *)
Definition error_span (classes : list string) (v : jsval) : option ErrorSpan :=
  match v with
  | JString (c :: s) =>
      Some {| span_classes := classes; span_text := c :: s |}
  | _ => None
  end.

(** The [value] attributes of the options of the select. *)
Definition category_options : list jsstring :=
  [JS "Food"; JS "Transportation"; JS "Entertainment"; JS "Other"].

Definition render (s : Component) : list FieldView :=
  let formData := st_formData s in
  let errors := st_errors s in
  [ {| fv_label := "Description *";
       fv_control :=
         {| ctl_tag := "input"; ctl_type := Some "text"%string;
            ctl_name := "description"; ctl_value := description formData;
            ctl_classes := control_classes errors; ctl_options := [] |};
       fv_error :=
         error_span ["form-error"%string] (get errors "description") |};
    {| fv_label := "Amount *";
       fv_control :=
         {| ctl_tag := "input"; ctl_type := Some "number"%string;
            ctl_name := "amount"; ctl_value := amount formData;
            ctl_classes := control_classes errors; ctl_options := [] |};
       fv_error :=
         error_span ["text-red-500"; "text-xs"; "mt-1"]%string
           (get errors "amount") |};
    {| fv_label := "Category *";
       fv_control :=
         {| ctl_tag := "select"; ctl_type := None;
            ctl_name := "category"; ctl_value := category formData;
            ctl_classes := control_classes errors;
            ctl_options := category_options |};
       fv_error :=
         error_span ["text-red-500"; "text-xs"; "mt-1"]%string
           (get errors "category") |};
    {| fv_label := "Date *";
       fv_control :=
         {| ctl_tag := "input"; ctl_type := Some "date"%string;
            ctl_name := "date"; ctl_value := date formData;
            ctl_classes := control_classes errors; ctl_options := [] |};
       fv_error :=
         error_span ["text-red-500"; "text-xs"; "mt-1"]%string
           (get errors "date") |} ].

(** What a field shows: its name, the text in its control and the text of
    its error span. *)
Definition shown (fv : FieldView) : string * jsstring * option jsstring :=
  (ctl_name (fv_control fv), ctl_value (fv_control fv),
   span_text <$> fv_error fv).

(** The message the form shows for [name] after a submit of [data] that
    failed. *)
Definition expected_message (name : string) (data : ExpenseFormData)
    : option jsstring :=
  if rule_failed name data then Some (message_of name) else None.

(** The events the rendered form can deliver: a change event comes from one
    of its controls and carries that control's name; the select delivers
    the value of one of its options, an input any text. *)
Definition offered (s : Component) (e : event) : Prop :=
  match e with
  | Submit _ => True
  | Change name value =>
      exists fv, fv ∈ render s
                 /\ ctl_name (fv_control fv) = name
                 /\ (ctl_tag (fv_control fv) = "select"%string ->
                     value ∈ ctl_options (fv_control fv))
  end.

Inductive reachable_by_form : Component -> Prop :=
| by_form_initial today : reachable_by_form (initial_state today)
| by_form_step s e :
    reachable_by_form s -> offered s e ->
    reachable_by_form (exec (handle e) s).

(** ** The class name of the expense card

    The article of the second [ExpenseCard] of [src/unnamed/part_000] has
    the class name
    [`expense-card ${highlighted} ? 'expense-card--highlighted': ''`]:
    only [highlighted] stands inside the braces, the rest is text. The prop
    is optional and defaults to [false]. *)

(** [String(b)] for a boolean. *)
Definition boolean_toString (b : bool) : string :=
  if b then "true"%string else "false"%string.

Definition ExpenseCard_className (highlighted : option bool) : string :=
  let highlighted := default false highlighted in
  ("expense-card " +:+ boolean_toString highlighted
   +:+ " ? 'expense-card--highlighted': ''")%string.

(** ASCII white space, which separates the tokens of a class name. *)
Definition is_class_separator (c : ascii) : bool :=
  let n := N_of_ascii c in
  (n =? 32) || (n =? 9) || (n =? 10) || (n =? 12) || (n =? 13).

Fixpoint split_tokens (cs : list ascii) (cur : list ascii) : list string :=
  match cs with
  | [] =>
      match cur with
      | [] => []
      | _ => [string_of_list_ascii (rev cur)]
      end
  | c :: cs' =>
      if is_class_separator c then
        match cur with
        | [] => split_tokens cs' []
        | _ => string_of_list_ascii (rev cur) :: split_tokens cs' []
        end
      else split_tokens cs' (c :: cur)
  end.

(** The class list of an element with class name [s]. *)
Definition classList (s : string) : list string :=
  split_tokens (list_ascii_of_string s) [].

(** ** The scenarios of the specification *)

Definition scenario_A : Component :=
  {| st_formData := {| description := JS " Coffee "; amount := JS "4.50";
                       category := JS "Food"; date := JS "2024-01-15" |};
     st_errors := {[ "amount"%string := JString amount_message ]};
     st_submitted := [] |}.

Definition scenario_B : Component :=
  {| st_formData := {| description := JS ""; amount := JS "-3";
                       category := JS ""; date := JS "" |};
     st_errors := ∅;
     st_submitted := [] |}.

(** ** The validator on the store

    [validateExpenseForm] receives a reference to the draft object and
    returns a reference to the object it allocates for the errors. Here the
    same function is written over a store of objects, with each property
    read, allocation and property write of the source spelled out, so that
    what the call does to the store can be stated. *)

Definition loc : Type := positive.

Abbreviation heap := (gmap loc (gmap string jsval)).

Definition H (A : Type) : Type := heap -> option (A * heap).

#[global] Instance H_ret : MRet H := λ A x h, Some (x, h).
#[global] Instance H_bind : MBind H :=
  λ A B f m h, match m h with Some (a, h') => f a h' | None => None end.

(** [{}]: a new object, at an address the store does not use. *)
Definition new_object : H loc :=
  λ h, let l := fresh (dom h) in Some (l, <[l := ∅]> h).

(** [o[k]] for the object at [l]. *)
Definition get_property (l : loc) (k : string) : H jsval :=
  λ h, match h !! l with Some o => Some (get o k, h) | None => None end.

(** [o[k] = v] for the object at [l]. *)
Definition set_property (l : loc) (k : string) (v : jsval) : H unit :=
  λ h, match h !! l with
       | Some o => Some (tt, <[l := <[k := v]> o]> h)
       | None => None
       end.

(** [Object.keys(o)] for the object at [l]. *)
Definition own_keys (l : loc) : H (list string) :=
  λ h, match h !! l with Some o => Some (Object_keys o, h) | None => None end.

(** The interface [ExpenseFormData] makes each field of the draft a string;
    a read that finds anything else is outside the typed program. *)
Definition as_string (v : jsval) : H jsstring :=
  λ h, match v with JString s => Some (s, h) | JUndefined => None end.

Definition when (b : bool) (m : H unit) : H unit := if b then m else mret tt.

Definition validateExpenseForm_ref (data : loc) : H (bool * loc) :=
  validationErrors ← new_object;
  description' ← get_property data "description" ≫= as_string;
  when (negb (truthy_string (trim description')))
    (set_property validationErrors "description"
       (JString description_message));;
  amount_text ← get_property data "amount" ≫= as_string;
  let amount' := parseFloat amount_text in
  when (isNaN amount' || le_zero amount')
    (set_property validationErrors "amount" (JString amount_message));;
  category' ← get_property data "category" ≫= as_string;
  when (negb (truthy_string category'))
    (set_property validationErrors "category" (JString category_message));;
  date' ← get_property data "date" ≫= as_string;
  when (negb (truthy_string date'))
    (set_property validationErrors "date" (JString date_message));;
  keys ← own_keys validationErrors;
  mret ((length keys =? 0)%nat, validationErrors).

(** The object [o] is the draft [d]: its four fields hold the four texts. *)
Definition represents (o : gmap string jsval) (d : ExpenseFormData) : Prop :=
  o !! "description"%string = Some (JString (description d))
  /\ o !! "amount"%string = Some (JString (amount d))
  /\ o !! "category"%string = Some (JString (category d))
  /\ o !! "date"%string = Some (JString (date d)).

(** The draft [d] as an object. *)
Definition object_of (d : ExpenseFormData) : gmap string jsval :=
  <["description"%string := JString (description d)]>
    (<["amount"%string := JString (amount d)]>
       (<["category"%string := JString (category d)]>
          {[ "date"%string := JString (date d) ]})).

(** A store with the draft of scenario B at address 1. *)
Definition store_B : heap :=
  {[ 1%positive := object_of (st_formData scenario_B) ]}.

(** * Properties *)

(** ** [parseFloat] on the amount of scenario A *)

Example parseFloat_4_50 :
  parseFloat (JS "4.50") = S754_finite false 5066549580791808 (-50)
  /\ number_value (parseFloat (JS "4.50")) = Some (9 # 2)%Q.
Proof. split; vm_compute; reflexivity. Qed.

(** ** The error object built by the validator *)

Lemma NoDup_field_names : NoDup field_names.
Proof. apply (bool_decide_unpack _). vm_compute. reflexivity. Qed.

Section Validator.
Variable data : ExpenseFormData.

Lemma rule_failed_field_names name :
  rule_failed name data = true -> name ∈ field_names.
Proof.
  unfold rule_failed, field_names.
  repeat case_decide; subst; try discriminate; intros _; set_solver.
Qed.

(** What each key of the returned object holds. *)
Lemma validate_errors_lookup name :
  errors (validateExpenseForm data) !! name =
    if rule_failed name data then Some (JString (message_of name)) else None.
Proof.
  unfold validateExpenseForm, rule_failed, message_of; cbn [errors].
  set (b1 := negb (truthy_string (trim (description data)))).
  set (b2 := isNaN (parseFloat (amount data)) || le_zero (parseFloat (amount data))).
  set (b3 := negb (truthy_string (category data))).
  set (b4 := negb (truthy_string (date data))).
  repeat (destruct (decide (name = _)) as [-> | ?]);
    destruct b1, b2, b3, b4;
    rewrite ?lookup_insert_eq, ?lookup_insert_ne, ?lookup_empty by done;
    reflexivity.
Qed.

Lemma validate_get name :
  get (errors (validateExpenseForm data)) name =
    if rule_failed name data then JString (message_of name) else JUndefined.
Proof.
  unfold get. rewrite validate_errors_lookup.
  destruct (rule_failed name data); reflexivity.
Qed.

(** The keys of the returned object are the names of the failed rules. *)
Lemma validate_keys :
  Object_keys (errors (validateExpenseForm data))
    ≡ₚ filter (λ name, rule_failed name data = true) field_names.
Proof.
  apply NoDup_Permutation.
  - apply NoDup_fst_map_to_list.
  - apply NoDup_filter, NoDup_field_names.
  - intros name. unfold Object_keys.
    rewrite list_elem_of_filter, list_elem_of_fmap. split.
    + intros [[k v] [-> Hkv%elem_of_map_to_list]]. cbn in *.
      rewrite validate_errors_lookup in Hkv.
      destruct (rule_failed k data) eqn:Hk; [| discriminate].
      split; [reflexivity | by apply rule_failed_field_names].
    + intros [Hf _]. exists (name, JString (message_of name)).
      split; [reflexivity |]. apply elem_of_map_to_list.
      rewrite validate_errors_lookup, Hf. reflexivity.
Qed.

Lemma validate_isValid :
  isValid (validateExpenseForm data) =
    bool_decide (Object_keys (errors (validateExpenseForm data)) = []).
Proof.
  unfold validateExpenseForm; cbn [isValid errors].
  match goal with |- (length ?l =? 0)%nat = _ => destruct l end;
    reflexivity.
Qed.

Lemma validate_valid_iff :
  isValid (validateExpenseForm data) = true
  <-> forall name, name ∈ field_names -> rule_failed name data = false.
Proof.
  rewrite validate_isValid, bool_decide_eq_true. split.
  - intros Hnil name Hin.
    destruct (rule_failed name data) eqn:Hf; [| reflexivity].
    assert (name ∈ Object_keys (errors (validateExpenseForm data))) as Hk.
    { rewrite validate_keys. apply list_elem_of_filter. by split. }
    rewrite Hnil in Hk. by apply elem_of_nil in Hk.
  - intros Hall. apply Permutation_nil_r.
    etransitivity; [apply validate_keys |].
    unfold field_names. cbn [filter list_filter].
    repeat case_decide; try reflexivity;
      match goal with
      | H : rule_failed ?n data = true |- _ =>
          rewrite (Hall n) in H; [discriminate | set_solver]
      end.
Qed.

Lemma validate_valid_errors :
  isValid (validateExpenseForm data) = true ->
  errors (validateExpenseForm data) = ∅.
Proof.
  intros Hv. apply map_eq. intros name.
  rewrite validate_errors_lookup, lookup_empty.
  destruct (rule_failed name data) eqn:Hf; [| reflexivity].
  rewrite (proj1 validate_valid_iff Hv name) in Hf; [discriminate |].
  by apply rule_failed_field_names.
Qed.
End Validator.

(** ** The comparison with zero, on values *)

Lemma finite_value_sign (s : bool) (m : positive) (e : Z) :
  exists q, number_value (S754_finite s m e) = Some q
            /\ if s then (q < 0)%Q else (0 < q)%Q.
Proof.
  cbn [number_value]. eexists. split; [reflexivity |].
  assert (forall a b, (0 < a)%Z -> (0 < Qred (a # b))%Q) as Hpos.
  { intros a b Ha. rewrite Qred_correct. unfold Qlt. cbn. lia. }
  assert (forall a b, (a < 0)%Z -> (Qred (a # b) < 0)%Q) as Hneg.
  { intros a b Ha. rewrite Qred_correct. unfold Qlt. cbn. lia. }
  destruct s, e as [| p | p]; first [apply Hneg | apply Hpos];
    try (pose proof (Z.pow_pos_nonneg 2 (Z.pos p)); nia); lia.
Qed.

Lemma le_zero_spec (x : number) : le_zero x = true <-> number_le_zero x.
Proof.
  unfold number_le_zero.
  destruct x as [s | s | | s m e]; cbn.
  - split; [| reflexivity]. intros _. right. exists 0%Q.
    split; [reflexivity | apply Qle_refl].
  - destruct s; split; try discriminate.
    + intros _. by left.
    + reflexivity.
    + intros [? | (q & ? & _)]; discriminate.
  - split; [discriminate |]. intros [? | (q & ? & _)]; discriminate.
  - destruct (finite_value_sign s m e) as (q & Hq & Hs).
    cbn [number_value] in Hq.
    destruct s; split; try discriminate.
    + intros _. right. exists q. split; [exact Hq | by apply Qlt_le_weak].
    + reflexivity.
    + intros [? | (q' & Hq' & Hle)]; [discriminate |].
      rewrite Hq in Hq'. injection Hq' as <-.
      exfalso. eapply Qlt_irrefl, Qlt_le_trans; eassumption.
Qed.

Lemma positive_not_rejected (x : number) :
  number_positive x -> isNaN x || le_zero x = false.
Proof.
  intros [-> | (q & Hq & Hpos)]; [reflexivity |].
  destruct x as [s | s | | s m e]; try discriminate.
  - injection Hq as <-. by apply Qlt_irrefl in Hpos.
  - destruct (finite_value_sign s m e) as (q' & Hq' & Hs).
    rewrite Hq in Hq'. injection Hq' as <-.
    destruct s; [| reflexivity].
    exfalso. eapply Qlt_irrefl, Qlt_trans; eassumption.
Qed.

Lemma trimStart_blank (s : jsstring) : is_blank s = true -> trimStart s = [].
Proof.
  induction s as [| c s IH]; [reflexivity |]. cbn.
  intros [Hc Hs]%andb_true_iff. rewrite Hc. by apply IH.
Qed.

Lemma parseFloat_blank (s : jsstring) :
  is_blank s = true -> parseFloat s = S754_nan.
Proof. intros H. unfold parseFloat. by rewrite trimStart_blank. Qed.

(** ** [parseFloat] reads a prefix

    A code unit that cannot occur in a StrDecimalLiteral, and is not white
    space, ends the text [parseFloat] looks at. *)

Section Suffix.
Variables (c : N) (rest : jsstring).
Hypothesis not_literal : is_literal_char c = false.

Let not_digit : is_digit c = false.
Proof. unfold is_literal_char in not_literal. by destruct (is_digit c). Qed.

Let not_dot : (c =? dot) = false.
Proof.
  unfold is_literal_char in not_literal.
  destruct (c =? dot); [| reflexivity].
  by rewrite orb_true_r in not_literal.
Qed.

Let not_exponent_indicator : is_exponent_indicator c = false.
Proof.
  unfold is_literal_char in not_literal.
  destruct (is_exponent_indicator c); [| reflexivity].
  by rewrite !orb_true_r in not_literal.
Qed.

Let not_plus : (c =? plus_sign) = false.
Proof.
  unfold is_literal_char in not_literal.
  destruct (c =? plus_sign); [| reflexivity].
  by rewrite !orb_true_r in not_literal.
Qed.

Let not_minus : (c =? minus_sign) = false.
Proof.
  unfold is_literal_char in not_literal.
  destruct (c =? minus_sign); [| reflexivity].
  by rewrite !orb_true_r in not_literal.
Qed.

Let not_in_Infinity : c ∉ JS "Infinity".
Proof.
  unfold is_literal_char in not_literal.
  intros Hin.
  destruct (bool_decide (c ∈ JS "Infinity")) eqn:Hb.
  - by rewrite orb_true_r in not_literal.
  - by apply bool_decide_eq_false in Hb.
Qed.

Lemma scan_digits_suffix (s : jsstring) :
  scan_digits (s ++ c :: rest)
  = ((scan_digits s).1, (scan_digits s).2 ++ c :: rest).
Proof.
  induction s as [| d s IH]; cbn.
  - by rewrite not_digit.
  - destruct (is_digit d); [| reflexivity].
    rewrite IH. by destruct (scan_digits s).
Qed.

Lemma starts_with_suffix (p s : jsstring) :
  c ∉ p -> starts_with p (s ++ c :: rest) = starts_with p s.
Proof.
  revert s. induction p as [| a p IH]; intros s Hp; [by destruct s |].
  apply not_elem_of_cons in Hp as [Hne Hp].
  destruct s as [| b s]; cbn.
  - apply andb_false_iff. left. apply N.eqb_neq. congruence.
  - by rewrite IH.
Qed.

Lemma parse_exponent_suffix (s : jsstring) :
  parse_exponent (s ++ c :: rest) = parse_exponent s.
Proof.
  destruct s as [| x s]; cbn [app parse_exponent].
  - by rewrite not_exponent_indicator.
  - destruct (is_exponent_indicator x); [| reflexivity].
    destruct s as [| sg s]; cbn [app].
    + rewrite not_plus, not_minus. cbn [scan_digits].
      by rewrite not_digit.
    + rewrite scan_digits_suffix.
      change (sg :: s ++ c :: rest) with ((sg :: s) ++ c :: rest).
      by rewrite scan_digits_suffix.
Qed.

Lemma parse_unsigned_suffix (neg : bool) (s : jsstring) :
  parse_unsigned neg (s ++ c :: rest) = parse_unsigned neg s.
Proof.
  unfold parse_unsigned.
  rewrite (starts_with_suffix _ s not_in_Infinity).
  destruct (starts_with (JS "Infinity") s); [reflexivity |].
  rewrite scan_digits_suffix.
  destruct (scan_digits s) as [ip r1]; cbn [fst snd].
  destruct r1 as [| x r2]; cbn [app].
  - rewrite not_dot. cbn [parse_exponent].
    by rewrite not_exponent_indicator.
  - destruct (x =? dot).
    + rewrite scan_digits_suffix.
      destruct (scan_digits r2) as [fp r3]; cbn [fst snd].
      by rewrite parse_exponent_suffix.
    + change (x :: r2 ++ c :: rest) with ((x :: r2) ++ c :: rest).
      by rewrite parse_exponent_suffix.
Qed.

Hypothesis not_whitespace : is_whitespace c = false.

Lemma trimStart_suffix (s : jsstring) :
  trimStart (s ++ c :: rest) = trimStart s ++ c :: rest.
Proof.
  induction s as [| w s IH]; cbn.
  - by rewrite not_whitespace.
  - by destruct (is_whitespace w).
Qed.

(** The text from [c] on does not matter. *)
Lemma parseFloat_suffix (s : jsstring) :
  parseFloat (s ++ c :: rest) = parseFloat s.
Proof.
  unfold parseFloat. rewrite trimStart_suffix.
  destruct (trimStart s) as [| x t]; cbn [app].
  - rewrite not_plus, not_minus.
    apply (parse_unsigned_suffix false []).
  - destruct (x =? plus_sign); [apply parse_unsigned_suffix |].
    destruct (x =? minus_sign); [apply parse_unsigned_suffix |].
    apply (parse_unsigned_suffix false (x :: t)).
Qed.
End Suffix.

Lemma symbol_not_literal (c : N) :
  is_currency_symbol c || is_grouping_separator c = true ->
  is_literal_char c = false /\ is_whitespace c = false.
Proof.
  intros H.
  assert (c = 36 \/ c = 39 \/ c = 44 \/ c = 95
          \/ (162 <= c <= 165) \/ (8352 <= c <= 8384)) as Hc.
  { unfold is_currency_symbol, is_grouping_separator in H.
    rewrite !orb_true_iff, !andb_true_iff, !N.eqb_eq, !N.leb_le in H. lia. }
  clear H. split.
  - unfold is_literal_char, is_digit, is_exponent_indicator,
      dot, plus_sign, minus_sign.
    rewrite !orb_false_iff, !andb_false_iff, !N.eqb_neq, !N.leb_gt.
    repeat split; try lia.
    apply bool_decide_eq_false. cbn.
    rewrite !elem_of_cons, elem_of_nil. lia.
  - unfold is_whitespace.
    rewrite !orb_false_iff, !andb_false_iff, !N.eqb_neq, !N.leb_gt. lia.
Qed.

(** ** The claims about the validator *)

(** C1. [validateExpenseForm] answers [isValid = true] exactly when none of
    the four field rules failed; the keys of the error object it returns are
    the names of the failed rules, each once, and each failed field holds its
    own message whether or not an earlier field failed too. *)
Theorem validate_valid_iff_no_rule_failed (data : ExpenseFormData) :
  (isValid (validateExpenseForm data) = true
   <-> forall name, name ∈ field_names -> rule_failed name data = false)
  /\ Object_keys (errors (validateExpenseForm data))
       ≡ₚ filter (λ name, rule_failed name data = true) field_names
  /\ NoDup (Object_keys (errors (validateExpenseForm data)))
  /\ forall name,
       get (errors (validateExpenseForm data)) name
       = if rule_failed name data then JString (message_of name)
         else JUndefined.
Proof.
  split; [apply validate_valid_iff |].
  split; [apply validate_keys |].
  split; [apply NoDup_fst_map_to_list |].
  apply validate_get.
Qed.

(** C2. The amount field carries the InvalidAmount message exactly when
    [parseFloat] of the raw text is NaN or a Number at most zero; when the
    text parses to a positive Number the error object has no amount key. *)
Theorem amount_error_iff_unparsable_or_not_positive (data : ExpenseFormData) :
  let parsed := parseFloat (amount data) in
  (get (errors (validateExpenseForm data)) "amount" = JString amount_message
   <-> parsed = S754_nan \/ number_le_zero parsed)
  /\ (error_kind (errors (validateExpenseForm data)) "amount"
      = Some InvalidAmount
      <-> parsed = S754_nan \/ number_le_zero parsed)
  /\ (number_positive parsed
      -> errors (validateExpenseForm data) !! "amount"%string = None).
Proof.
  intros parsed.
  assert (rule_failed "amount" data = true
          <-> parsed = S754_nan \/ number_le_zero parsed) as Hrule.
  { change (rule_failed "amount" data) with (isNaN parsed || le_zero parsed).
    rewrite orb_true_iff, le_zero_spec.
    enough (isNaN parsed = true <-> parsed = S754_nan) by tauto.
    destruct parsed; cbn; split; congruence. }
  split; [| split].
  - rewrite <- Hrule, validate_get.
    destruct (rule_failed "amount" data); split; intros H;
      first [reflexivity | discriminate].
  - rewrite <- Hrule. unfold error_kind. rewrite validate_get.
    destruct (rule_failed "amount" data); [by split |].
    split; discriminate.
  - intros Hpos. rewrite validate_errors_lookup.
    change (rule_failed "amount" data) with (isNaN parsed || le_zero parsed).
    by rewrite positive_not_rejected.
Qed.

(** C3, as the code has it. The category field carries its Required message
    exactly when the category is the empty string; any other category,
    enumerated or not, leaves the error object without a category key. *)
Theorem category_error_iff_empty (data : ExpenseFormData) :
  errors (validateExpenseForm data) !! "category"%string
  = if decide (category data = []) then Some (JString category_message)
    else None.
Proof.
  rewrite validate_errors_lookup.
  change (rule_failed "category" data)
    with (negb (truthy_string (category data))).
  destruct (category data); reflexivity.
Qed.

(** C3 fails on the code: the category Shopping is not empty and not one of
    the enumerated categories, the rule of the specification rejects it, and
    the validator accepts the draft with no category error. *)
Lemma category_not_enumerated_accepted :
  let data := {| description := JS "Lunch"; amount := JS "12";
                 category := JS "Shopping"; date := JS "2024-01-15" |} in
  truthy_string (category data) = true
  /\ bool_decide (category data ∈ ExpenseCategory) = false
  /\ spec_category_rule_failed data = true
  /\ get (errors (validateExpenseForm data)) "category" = JUndefined
  /\ isValid (validateExpenseForm data) = true.
Proof. vm_compute. repeat split; reflexivity. Qed.

(** C4, as the code has it. When the amount text holds a currency symbol or
    a grouping separator, [parseFloat] reads only the text before it: the
    amount is judged on that prefix alone, and rejected with InvalidAmount
    when the prefix is blank. *)
Theorem amount_with_symbol_judged_on_prefix
    (data : ExpenseFormData) (s : jsstring) (c : N) (rest : jsstring) :
  is_currency_symbol c || is_grouping_separator c = true ->
  amount data = s ++ c :: rest ->
  parseFloat (amount data) = parseFloat s
  /\ (get (errors (validateExpenseForm data)) "amount" = JString amount_message
      <-> isNaN (parseFloat s) || le_zero (parseFloat s) = true)
  /\ (is_blank s = true ->
      error_kind (errors (validateExpenseForm data)) "amount"
      = Some InvalidAmount).
Proof.
  intros [Hlit Hws]%symbol_not_literal Hamount.
  assert (parseFloat (amount data) = parseFloat s) as Hparse.
  { rewrite Hamount. by apply parseFloat_suffix. }
  assert (rule_failed "amount" data
          = isNaN (parseFloat s) || le_zero (parseFloat s)) as Hrule.
  { rewrite <- Hparse. reflexivity. }
  split; [exact Hparse |]. split.
  - rewrite validate_get, Hrule.
    destruct (isNaN (parseFloat s) || le_zero (parseFloat s)); split;
      intros H; first [reflexivity | discriminate].
  - intros Hblank. unfold error_kind.
    rewrite validate_get, Hrule, (parseFloat_blank s Hblank). reflexivity.
Qed.

Lemma amount_with_symbol_judged_on_prefix_witness :
  let data := {| description := JS "Tea"; amount := JS "$5";
                 category := JS "Food"; date := JS "2024-01-15" |} in
  (is_currency_symbol 36 || is_grouping_separator 36 = true
   /\ amount data = [] ++ 36 :: JS "5")
  /\ parseFloat (amount data) = parseFloat []
  /\ error_kind (errors (validateExpenseForm data)) "amount"
     = Some InvalidAmount.
Proof.
  split; [split; reflexivity |].
  destruct (amount_with_symbol_judged_on_prefix
              {| description := JS "Tea"; amount := JS "$5";
                 category := JS "Food"; date := JS "2024-01-15" |}
              [] 36 (JS "5") eq_refl eq_refl) as (Hparse & _ & Hblank).
  split; [exact Hparse | apply Hblank; reflexivity].
Defined.

(** C4 fails on the code: an amount with a grouping separator after its
    first digits, or a currency symbol after its digits, is accepted; the
    validator reports no amount error and the draft is valid. *)
Lemma grouping_separator_amount_accepted :
  let data := {| description := JS "Rent"; amount := JS "12,000";
                 category := JS "Other"; date := JS "2024-01-15" |} in
  let data' := {| description := JS "Tea"; amount := JS "5$";
                  category := JS "Food"; date := JS "2024-01-15" |} in
  (existsb is_grouping_separator (amount data) = true
   /\ get (errors (validateExpenseForm data)) "amount" = JUndefined
   /\ isValid (validateExpenseForm data) = true
   /\ number_value (parseFloat (amount data)) = Some (12 # 1)%Q)
  /\ (existsb is_currency_symbol (amount data') = true
      /\ get (errors (validateExpenseForm data')) "amount" = JUndefined
      /\ isValid (validateExpenseForm data') = true
      /\ number_value (parseFloat (amount data')) = Some (5 # 1)%Q).
Proof. vm_compute. repeat split; reflexivity. Qed.

(** C10. An amount that is empty or white space only is reported with the
    InvalidAmount message, the one every rejected amount gets: no Required
    error is ever stored for the amount field. *)
Theorem blank_amount_is_invalid_amount (data : ExpenseFormData) :
  is_blank (amount data) = true ->
  parseFloat (amount data) = S754_nan
  /\ get (errors (validateExpenseForm data)) "amount" = JString amount_message
  /\ error_kind (errors (validateExpenseForm data)) "amount"
     = Some InvalidAmount
  /\ forall data', rule_failed "amount" data' = true ->
       errors (validateExpenseForm data') !! "amount"%string
       = errors (validateExpenseForm data) !! "amount"%string.
Proof.
  intros Hblank. pose proof (parseFloat_blank _ Hblank) as Hnan.
  assert (rule_failed "amount" data = true) as Hrule.
  { change (rule_failed "amount" data)
      with (isNaN (parseFloat (amount data))
            || le_zero (parseFloat (amount data))).
    by rewrite Hnan. }
  split; [exact Hnan |]. unfold error_kind.
  rewrite validate_get, Hrule. repeat split.
  intros data' Hrule'. by rewrite !validate_errors_lookup, Hrule, Hrule'.
Qed.

Lemma blank_amount_is_invalid_amount_witness :
  let data := {| description := JS "Bus"; amount := JS "   ";
                 category := JS "Transportation";
                 date := JS "2024-02-01" |} in
  let data' := {| description := JS "Bus"; amount := JS "";
                  category := JS "Transportation";
                  date := JS "2024-02-01" |} in
  (is_blank (amount data) = true
   /\ error_kind (errors (validateExpenseForm data)) "amount"
      = Some InvalidAmount)
  /\ (is_blank (amount data') = true
      /\ error_kind (errors (validateExpenseForm data')) "amount"
         = Some InvalidAmount).
Proof.
  split; (split; [reflexivity |]).
  - apply (blank_amount_is_invalid_amount
             {| description := JS "Bus"; amount := JS "   ";
                category := JS "Transportation"; date := JS "2024-02-01" |}).
    reflexivity.
  - apply (blank_amount_is_invalid_amount
             {| description := JS "Bus"; amount := JS "";
                category := JS "Transportation"; date := JS "2024-02-01" |}).
    reflexivity.
Defined.

(** ** The handlers, as state transformers *)

Lemma exec_handleInputChange (s : Component) (name : string) (value : jsstring) :
  exec (handleInputChange name value) s
  = {| st_formData := set_field name value (st_formData s);
       st_errors := if truthy (get (st_errors s) name)
                    then <[name := JUndefined]> (st_errors s)
                    else st_errors s;
       st_submitted := st_submitted s |}.
Proof.
  unfold exec, handleInputChange, mbind, M_bind, read_errors, setFormData,
    setErrors, mret, M_ret.
  cbn. by destruct (truthy (get (st_errors s) name)).
Qed.

Lemma exec_handleSubmit (s : Component) (today : jsstring) :
  exec (handleSubmit today) s
  = if isValid (validateExpenseForm (st_formData s)) then
      {| st_formData := initial_formData today;
         st_errors := ∅;
         st_submitted :=
           st_submitted s
           ++ [{| exp_description := trim (description (st_formData s));
                  exp_amount := parseFloat (amount (st_formData s));
                  exp_category := category (st_formData s);
                  exp_date := date (st_formData s) |}] |}
    else
      {| st_formData := st_formData s;
         st_errors := errors (validateExpenseForm (st_formData s));
         st_submitted := st_submitted s |}.
Proof.
  unfold exec, handleSubmit, mbind, M_bind, read_formData, setFormData,
    setErrors, onSubmit.
  cbn [fst snd st_formData st_errors st_submitted].
  destruct (isValid (validateExpenseForm (st_formData s))); reflexivity.
Qed.

Lemma get_field_set_field_eq (name : string) (value : jsstring)
    (data : ExpenseFormData) :
  name ∈ field_names -> get_field name (set_field name value data) = JString value.
Proof.
  unfold field_names. rewrite !elem_of_cons, elem_of_nil.
  intros [-> | [-> | [-> | [-> | []]]]]; reflexivity.
Qed.

Lemma get_field_set_field_ne (name other : string) (value : jsstring)
    (data : ExpenseFormData) :
  other <> name ->
  get_field other (set_field name value data) = get_field other data.
Proof.
  intros Hne. unfold set_field.
  repeat (destruct (decide (name = _)) as [-> | ?]); try reflexivity;
    unfold get_field;
    repeat (destruct (decide (other = _)) as [-> | ?]);
    first [reflexivity | congruence].
Qed.

Lemma rule_failed_set_field_ne (name other : string) (value : jsstring)
    (data : ExpenseFormData) :
  other <> name ->
  rule_failed other (set_field name value data) = rule_failed other data.
Proof.
  intros Hne. unfold set_field.
  repeat (destruct (decide (name = _)) as [-> | ?]); try reflexivity;
    unfold rule_failed;
    repeat (destruct (decide (other = _)) as [-> | ?]);
    first [reflexivity | congruence].
Qed.

Lemma truthy_message_of (name : string) : truthy_string (message_of name) = true.
Proof. unfold message_of. repeat case_decide; reflexivity. Qed.

Lemma get_insert_eq (o : FormErrors) (k : string) (v : jsval) :
  get (<[k := v]> o) k = v.
Proof. unfold get. by rewrite lookup_insert_eq. Qed.

Lemma get_insert_ne (o : FormErrors) (k k' : string) (v : jsval) :
  k <> k' -> get (<[k := v]> o) k' = get o k'.
Proof. intros. unfold get. by rewrite lookup_insert_ne. Qed.

Lemma errors_justified_initial (today : jsstring) :
  errors_justified (initial_state today).
Proof. intros name msg. unfold get. cbn. by rewrite lookup_empty. Qed.

Lemma errors_justified_change (s : Component) (name : string) (value : jsstring) :
  errors_justified s -> errors_justified (exec (handleInputChange name value) s).
Proof.
  intros Hinv other msg. rewrite exec_handleInputChange.
  cbn [st_errors st_formData].
  destruct (decide (other = name)) as [-> | Hne].
  - destruct (truthy (get (st_errors s) name)) eqn:Ht.
    + by rewrite get_insert_eq.
    + intros Hget. destruct (Hinv _ _ Hget) as [_ ->].
      rewrite Hget in Ht. cbn in Ht. by rewrite truthy_message_of in Ht.
  - rewrite rule_failed_set_field_ne by done.
    destruct (truthy (get (st_errors s) name)).
    + rewrite get_insert_ne by done. apply Hinv.
    + apply Hinv.
Qed.

Lemma errors_justified_submit (s : Component) (today : jsstring) :
  errors_justified (exec (handleSubmit today) s).
Proof.
  intros name msg. rewrite exec_handleSubmit.
  destruct (isValid (validateExpenseForm (st_formData s)));
    cbn [st_errors st_formData].
  - unfold get. by rewrite lookup_empty.
  - rewrite validate_get.
    destruct (rule_failed name (st_formData s)); [| discriminate].
    intros [= <-]. by split.
Qed.

Lemma reachable_errors_justified (s : Component) :
  reachable s -> errors_justified s.
Proof.
  induction 1 as [today | s e _ IH].
  - apply errors_justified_initial.
  - destruct e as [name value | today]; cbn [handle].
    + by apply errors_justified_change.
    + apply errors_justified_submit.
Qed.

(** ** The claims about the controller *)

(** C5. When the draft passes validation, [handleSubmit] empties the error
    object, calls [onSubmit] once, with the description trimmed, the amount
    parsed and the category and date as they are, and resets the draft to an
    empty description, an empty amount, the category Food and today's date. *)
Theorem submit_valid_draft (s : Component) (today : jsstring) :
  isValid (validateExpenseForm (st_formData s)) = true ->
  exec (handleSubmit today) s
  = {| st_formData := {| description := []; amount := [];
                         category := JS "Food"; date := today |};
       st_errors := ∅;
       st_submitted :=
         st_submitted s
         ++ [{| exp_description := trim (description (st_formData s));
                exp_amount := parseFloat (amount (st_formData s));
                exp_category := category (st_formData s);
                exp_date := date (st_formData s) |}] |}.
Proof. intros Hvalid. by rewrite exec_handleSubmit, Hvalid. Qed.

Lemma submit_valid_draft_witness :
  isValid (validateExpenseForm (st_formData scenario_A)) = true
  /\ exec (handleSubmit (JS "2024-03-09")) scenario_A
     = {| st_formData := {| description := []; amount := [];
                            category := JS "Food";
                            date := JS "2024-03-09" |};
          st_errors := ∅;
          st_submitted :=
            [{| exp_description := JS "Coffee";
                exp_amount := S754_finite false 5066549580791808 (-50);
                exp_category := JS "Food";
                exp_date := JS "2024-01-15" |}] |}
  /\ number_value (S754_finite false 5066549580791808 (-50)) = Some (9 # 2)%Q.
Proof.
  split; [reflexivity |]. split; [| reflexivity].
  rewrite (submit_valid_draft scenario_A (JS "2024-03-09")) by reflexivity.
  reflexivity.
Defined.

(** C6. When the draft fails validation, [handleSubmit] replaces the error
    object by the one the validator returned, keeps every field of the
    draft, and does not call [onSubmit]. *)
Theorem submit_invalid_draft (s : Component) (today : jsstring) :
  isValid (validateExpenseForm (st_formData s)) = false ->
  exec (handleSubmit today) s
  = {| st_formData := st_formData s;
       st_errors := errors (validateExpenseForm (st_formData s));
       st_submitted := st_submitted s |}.
Proof. intros Hinvalid. by rewrite exec_handleSubmit, Hinvalid. Qed.

Lemma submit_invalid_draft_witness :
  let s' := exec (handleSubmit (JS "2024-03-09")) scenario_B in
  isValid (validateExpenseForm (st_formData scenario_B)) = false
  /\ s' = {| st_formData := st_formData scenario_B;
             st_errors :=
               errors (validateExpenseForm (st_formData scenario_B));
             st_submitted := [] |}
  /\ map (error_kind (st_errors s')) field_names
     = [Some Required; Some InvalidAmount; Some Required; Some Required].
Proof.
  split; [reflexivity |]. split; [| reflexivity].
  apply (submit_invalid_draft scenario_B (JS "2024-03-09")). reflexivity.
Defined.

(** C7. [handleInputChange name value], for one of the four field names,
    stores [value] in that field of the draft and leaves the other fields
    as they were; the error of that field, when there is one, reads
    [undefined] afterwards, and the entries of all other fields, and the
    calls made to [onSubmit], are unchanged. *)
Theorem change_sets_field_and_clears_its_error
    (s : Component) (name : string) (value : jsstring) :
  name ∈ field_names ->
  let s' := exec (handleInputChange name value) s in
  get_field name (st_formData s') = JString value
  /\ (forall other, other <> name ->
        get_field other (st_formData s') = get_field other (st_formData s))
  /\ truthy (get (st_errors s') name) = false
  /\ (truthy (get (st_errors s) name) = true ->
        get (st_errors s') name = JUndefined)
  /\ (truthy (get (st_errors s) name) = false -> st_errors s' = st_errors s)
  /\ (forall other, other <> name ->
        st_errors s' !! other = st_errors s !! other)
  /\ st_submitted s' = st_submitted s.
Proof.
  intros Hname s'. subst s'. rewrite exec_handleInputChange.
  cbn [st_formData st_errors st_submitted].
  split; [by apply get_field_set_field_eq |].
  split; [intros other Hne; by apply get_field_set_field_ne |].
  destruct (truthy (get (st_errors s) name)) eqn:Ht.
  - rewrite get_insert_eq. repeat split; try done.
    intros other Hne. by rewrite lookup_insert_ne.
  - repeat split; done.
Qed.

Lemma change_sets_field_and_clears_its_error_witness :
  let s' := exec (handleInputChange "amount" (JS "12.50")) scenario_A in
  ("amount"%string ∈ field_names
   /\ get (st_errors scenario_A) "amount" = JString amount_message)
  /\ get_field "amount" (st_formData s') = JString (JS "12.50")
  /\ get (st_errors s') "amount" = JUndefined.
Proof.
  assert ("amount"%string ∈ field_names) as Hname.
  { apply (bool_decide_unpack _). reflexivity. }
  split; [split; [exact Hname | reflexivity] |].
  destruct (change_sets_field_and_clears_its_error
              scenario_A "amount" (JS "12.50") Hname)
    as (Hfield & _ & _ & Hclear & _).
  split; [exact Hfield | apply Hclear; reflexivity].
Defined.

(** C8. In every state the form reaches from its initial state by field
    changes and submits, a field whose current value passes its rule has no
    error: each error the form holds belongs to a rule the current draft
    fails, under the rules of the code and under the category rule of the
    specification alike. *)
Theorem reachable_no_error_on_satisfied_field (s : Component) :
  reachable s ->
  (forall name, rule_failed name (st_formData s) = false ->
     get (st_errors s) name = JUndefined)
  /\ (forall name msg, get (st_errors s) name = JString msg ->
        name ∈ field_names /\ msg = message_of name)
  /\ (spec_category_rule_failed (st_formData s) = false ->
        get (st_errors s) "category" = JUndefined).
Proof.
  intros Hinv%reachable_errors_justified.
  assert (forall name, rule_failed name (st_formData s) = false ->
            get (st_errors s) name = JUndefined) as Hnone.
  { intros name Hok. destruct (get (st_errors s) name) as [| msg] eqn:Hget;
      [reflexivity |].
    destruct (Hinv _ _ Hget) as [Hfail _]. congruence. }
  split; [exact Hnone |]. split.
  - intros name msg Hget. destruct (Hinv _ _ Hget) as [Hfail ->].
    split; [by apply (rule_failed_field_names (st_formData s)) | reflexivity].
  - intros Hspec. apply Hnone. unfold spec_category_rule_failed in Hspec.
    by apply orb_false_iff in Hspec as [Hempty _].
Qed.

Lemma reachable_no_error_on_satisfied_field_witness :
  let s := exec (handle (Change "amount" (JS "12.50")))
             (exec (handle (Submit (JS "2024-03-09")))
                (initial_state (JS "2024-03-09"))) in
  reachable s
  /\ rule_failed "amount" (st_formData s) = false
  /\ get (st_errors s) "amount" = JUndefined
  /\ get (st_errors s) "description" = JString description_message.
Proof.
  assert (reachable
            (exec (handle (Change "amount" (JS "12.50")))
               (exec (handle (Submit (JS "2024-03-09")))
                  (initial_state (JS "2024-03-09"))))) as Hreach.
  { do 2 apply reachable_step. apply reachable_initial. }
  split; [exact Hreach |]. split; [reflexivity |].
  split; [| reflexivity].
  apply (reachable_no_error_on_satisfied_field _ Hreach). reflexivity.
Defined.

(** ** The validator on the store: what a call does *)

Section Store.
Variables (h : heap) (data l : loc) (o : gmap string jsval).
Hypothesis data_object : h !! data = Some o.
Hypothesis l_other : l <> data.

Lemma get_property_data (e : gmap string jsval) (k : string) (s : jsstring) :
  o !! k = Some (JString s) ->
  (get_property data k ≫= as_string) (<[l := e]> h)
  = Some (s, <[l := e]> h).
Proof.
  intros Hk. unfold mbind, H_bind, get_property, as_string, get.
  by rewrite lookup_insert_ne, data_object, Hk by done.
Qed.

Lemma when_set_property (e : gmap string jsval) (b : bool) (k : string)
    (v : jsval) :
  when b (set_property l k v) (<[l := e]> h)
  = Some (tt, <[l := if b then <[k := v]> e else e]> h).
Proof.
  destruct b; [| reflexivity]. unfold when, set_property.
  by rewrite lookup_insert_eq, insert_insert_eq.
Qed.

Lemma own_keys_new (e : gmap string jsval) :
  own_keys l (<[l := e]> h) = Some (Object_keys e, <[l := e]> h).
Proof. unfold own_keys. by rewrite lookup_insert_eq. Qed.
End Store.

Lemma fresh_not_allocated (h : heap) (l : loc) (o : gmap string jsval) :
  h !! l = Some o -> fresh (dom h) <> l /\ h !! fresh (dom h) = None.
Proof.
  intros Hl. pose proof (is_fresh (dom h)) as Hfresh. split.
  - intros Heq. apply Hfresh. rewrite Heq. by apply elem_of_dom_2 in Hl.
  - by apply not_elem_of_dom.
Qed.

(** The call on the store computes what the function on values computes,
    and the store it leaves is the old one with the new error object. *)
Lemma validateExpenseForm_ref_run (h : heap) (data : loc)
    (o : gmap string jsval) (d : ExpenseFormData) :
  h !! data = Some o -> represents o d ->
  validateExpenseForm_ref data h
  = Some (isValid (validateExpenseForm d), fresh (dom h),
          <[fresh (dom h) := errors (validateExpenseForm d)]> h).
Proof.
  intros Hdata (Hdesc & Hamount & Hcat & Hdate).
  destruct (fresh_not_allocated h data o Hdata) as [Hne _].
  unfold validateExpenseForm_ref.
  unfold mbind at 1. unfold H_bind at 1. unfold new_object at 1.
  cbn beta iota zeta.
  unfold mbind at 1. unfold H_bind at 1.
  rewrite (get_property_data h data _ o Hdata Hne _ _ _ Hdesc).
  unfold mbind at 1. unfold H_bind at 1. rewrite when_set_property.
  unfold mbind at 1. unfold H_bind at 1.
  rewrite (get_property_data h data _ o Hdata Hne _ _ _ Hamount).
  cbn zeta.
  unfold mbind at 1. unfold H_bind at 1. rewrite when_set_property.
  unfold mbind at 1. unfold H_bind at 1.
  rewrite (get_property_data h data _ o Hdata Hne _ _ _ Hcat).
  unfold mbind at 1. unfold H_bind at 1. rewrite when_set_property.
  unfold mbind at 1. unfold H_bind at 1.
  rewrite (get_property_data h data _ o Hdata Hne _ _ _ Hdate).
  unfold mbind at 1. unfold H_bind at 1. rewrite when_set_property.
  unfold mbind at 1. unfold H_bind at 1. rewrite own_keys_new.
  reflexivity.
Qed.

(** ** The claim about purity *)

(** C9. [validateExpenseForm] is a function of the draft alone and changes
    nothing that exists: called twice on the same draft object, it returns
    the same flag and two new error objects with the same content, both
    those of the function on values, and every object the store held before
    the calls, the draft among them, is as it was. *)
Theorem validate_pure_and_deterministic (h : heap) (data : loc)
    (o : gmap string jsval) (d : ExpenseFormData) :
  h !! data = Some o -> represents o d ->
  exists l1 l2 h1 h2,
    validateExpenseForm_ref data h
    = Some (isValid (validateExpenseForm d), l1, h1)
    /\ validateExpenseForm_ref data h1
       = Some (isValid (validateExpenseForm d), l2, h2)
    /\ h !! l1 = None /\ h1 !! l2 = None
    /\ h1 !! l1 = Some (errors (validateExpenseForm d))
    /\ h2 !! l2 = Some (errors (validateExpenseForm d))
    /\ (forall l o', h !! l = Some o' ->
          h1 !! l = Some o' /\ h2 !! l = Some o')
    /\ h2 !! data = Some o.
Proof.
  intros Hdata Hrep.
  set (E := errors (validateExpenseForm d)).
  set (l1 := fresh (dom h)). set (h1 := <[l1 := E]> h).
  set (l2 := fresh (dom h1)). set (h2 := <[l2 := E]> h1).
  destruct (fresh_not_allocated h data o Hdata) as [Hne1 Hnew1].
  assert (h1 !! data = Some o) as Hdata1.
  { unfold h1. by rewrite lookup_insert_ne. }
  destruct (fresh_not_allocated h1 data o Hdata1) as [Hne2 Hnew2].
  assert (forall l o', h !! l = Some o' -> h1 !! l = Some o') as Hkeep1.
  { intros l o' Hl. unfold h1. rewrite lookup_insert_ne; [done |].
    intros <-. fold l1 in Hnew1. congruence. }
  assert (forall l o', h1 !! l = Some o' -> h2 !! l = Some o') as Hkeep2.
  { intros l o' Hl. unfold h2. rewrite lookup_insert_ne; [done |].
    intros <-. fold l2 in Hnew2. congruence. }
  exists l1, l2, h1, h2. repeat split.
  - by apply validateExpenseForm_ref_run with o.
  - by apply validateExpenseForm_ref_run with o.
  - exact Hnew1.
  - exact Hnew2.
  - unfold h1. by rewrite lookup_insert_eq.
  - unfold h2. by rewrite lookup_insert_eq.
  - by apply Hkeep1.
  - by apply Hkeep2, Hkeep1.
  - by apply Hkeep2.
Qed.

Lemma validate_pure_and_deterministic_witness :
  let d := st_formData scenario_B in
  (store_B !! 1%positive = Some (object_of d) /\ represents (object_of d) d)
  /\ exists l1 l2 h1 h2,
       validateExpenseForm_ref 1%positive store_B
       = Some (isValid (validateExpenseForm d), l1, h1)
       /\ validateExpenseForm_ref 1%positive h1
          = Some (isValid (validateExpenseForm d), l2, h2)
       /\ store_B !! l1 = None /\ h1 !! l2 = None
       /\ h1 !! l1 = Some (errors (validateExpenseForm d))
       /\ h2 !! l2 = Some (errors (validateExpenseForm d))
       /\ (forall l o', store_B !! l = Some o' ->
             h1 !! l = Some o' /\ h2 !! l = Some o')
       /\ h2 !! 1%positive = Some (object_of d).
Proof.
  assert (store_B !! 1%positive = Some (object_of (st_formData scenario_B)))
    as Hdata by reflexivity.
  assert (represents (object_of (st_formData scenario_B))
            (st_formData scenario_B)) as Hrep
    by (repeat split; reflexivity).
  split; [split; [exact Hdata | exact Hrep] |].
  exact (validate_pure_and_deterministic store_B 1%positive _ _ Hdata Hrep).
Defined.

(** ** Scenario C of the specification *)

(** A draft whose only fault is an amount that is no number gets the amount
    error alone and is left as typed. *)
Example scenario_C_only_amount_rejected :
  let s := {| st_formData := {| description := JS "Bus"; amount := JS "abc";
                                category := JS "Transportation";
                                date := JS "2024-02-01" |};
              st_errors := ∅; st_submitted := [] |} in
  let s' := exec (handleSubmit (JS "2024-03-09")) s in
  map (error_kind (st_errors s')) field_names
  = [None; Some InvalidAmount; None; None]
  /\ st_formData s' = st_formData s
  /\ st_submitted s' = [].
Proof. vm_compute. repeat split; reflexivity. Qed.

(** * Further properties of the form *)

(** ** [trim] *)

Lemma trimStart_split (s : jsstring) :
  exists ws, s = ws ++ trimStart s /\ is_blank ws = true.
Proof.
  induction s as [| c s (ws & Hs & Hws)]; [by exists [] |]. cbn.
  destruct (is_whitespace c) eqn:Hc.
  - exists (c :: ws). split; [by rewrite <- app_comm_cons, <- Hs |].
    cbn. by rewrite Hc.
  - by exists [].
Qed.

Lemma trimStart_nil_iff (s : jsstring) :
  trimStart s = [] <-> is_blank s = true.
Proof.
  split; [| apply trimStart_blank].
  intros Hnil. destruct (trimStart_split s) as (ws & Hs & Hws).
  rewrite Hnil, app_nil_r in Hs. by subst.
Qed.

Lemma trimStart_head (s : jsstring) (c : N) (t : jsstring) :
  trimStart s = c :: t -> is_whitespace c = false.
Proof.
  induction s as [| d s IH]; [discriminate |]. cbn.
  destruct (is_whitespace d) eqn:Hd; [exact IH |]. by intros [= <- _].
Qed.

Lemma trimStart_fixed (s : jsstring) :
  trimStart s = s <-> (forall c t, s = c :: t -> is_whitespace c = false).
Proof.
  split.
  - intros Hfix c t ->. by apply (trimStart_head _ _ _ Hfix).
  - intros Hhead. destruct s as [| c t]; [reflexivity |].
    cbn. by rewrite (Hhead c t).
Qed.

Lemma trimStart_idempotent (s : jsstring) :
  trimStart (trimStart s) = trimStart s.
Proof.
  apply trimStart_fixed. intros c t Hs. by apply (trimStart_head s c t).
Qed.

Lemma is_blank_app (s t : jsstring) :
  is_blank (s ++ t) = is_blank s && is_blank t.
Proof. apply forallb_app. Qed.

Lemma is_blank_rev (s : jsstring) : is_blank (rev s) = is_blank s.
Proof.
  induction s as [| c s IH]; [reflexivity |]. cbn [rev].
  rewrite is_blank_app, IH. cbn. rewrite andb_true_r. apply andb_comm.
Qed.

Lemma is_blank_trimStart (s : jsstring) :
  is_blank (trimStart s) = is_blank s.
Proof.
  destruct (trimStart_split s) as (ws & Hs & Hws).
  rewrite Hs at 2. by rewrite is_blank_app, Hws.
Qed.

Lemma trimEnd_split (s : jsstring) :
  exists ws, s = trimEnd s ++ ws /\ is_blank ws = true.
Proof.
  destruct (trimStart_split (rev s)) as (ws & Hs & Hws).
  exists (rev ws). split; [| by rewrite is_blank_rev].
  unfold trimEnd. by rewrite <- rev_app_distr, <- Hs, rev_involutive.
Qed.

Lemma trim_nil_iff (s : jsstring) : trim s = [] <-> is_blank s = true.
Proof.
  unfold trim, trimEnd.
  rewrite <- is_blank_trimStart, <- (is_blank_rev (trimStart s)),
    <- trimStart_nil_iff.
  split; [| by intros ->].
  intros Hrev. apply (f_equal (@rev N)) in Hrev.
  by rewrite rev_involutive in Hrev.
Qed.

Lemma trimStart_trimEnd (s : jsstring) :
  trimStart s = s -> trimStart (trimEnd s) = trimEnd s.
Proof.
  intros Hfix. apply trimStart_fixed. intros c t Hend.
  destruct (trimEnd_split s) as (ws & Hs & _).
  rewrite Hend in Hs. apply (proj1 (trimStart_fixed s) Hfix c (t ++ ws)).
  by rewrite Hs.
Qed.

Lemma trim_idempotent (s : jsstring) : trim (trim s) = trim s.
Proof.
  unfold trim.
  rewrite (trimStart_trimEnd (trimStart s)) by apply trimStart_idempotent.
  unfold trimEnd. by rewrite rev_involutive, trimStart_idempotent.
Qed.

(** ** Numbers that pass the amount test *)

Lemma not_rejected_positive (x : number) :
  isNaN x || le_zero x = false -> number_positive x.
Proof.
  destruct x as [s | [|] | | [|] m e]; try discriminate.
  - intros _. by left.
  - intros _. right.
    destruct (finite_value_sign false m e) as (q & Hq & Hpos). by exists q.
Qed.

(** ** What reaches the sink *)

Lemma valid_rule_passes (data : ExpenseFormData) (name : string) :
  isValid (validateExpenseForm data) = true -> rule_failed name data = false.
Proof.
  intros Hvalid. destruct (rule_failed name data) eqn:Hf; [| reflexivity].
  rewrite <- Hf. apply (proj1 (validate_valid_iff data) Hvalid).
  by apply (rule_failed_field_names data).
Qed.

Lemma truthy_string_not_nil (s : jsstring) :
  negb (truthy_string s) = false -> s <> [].
Proof. by destruct s. Qed.

Lemma valid_record_ok (data : ExpenseFormData) :
  isValid (validateExpenseForm data) = true ->
  submitted_ok {| exp_description := trim (description data);
                  exp_amount := parseFloat (amount data);
                  exp_category := category data;
                  exp_date := date data |}.
Proof.
  intros Hvalid. unfold submitted_ok. cbn.
  pose proof (valid_rule_passes data "description" Hvalid) as Hd.
  pose proof (valid_rule_passes data "amount" Hvalid) as Ha.
  pose proof (valid_rule_passes data "category" Hvalid) as Hc.
  pose proof (valid_rule_passes data "date" Hvalid) as Ht.
  repeat split.
  - by apply truthy_string_not_nil.
  - apply trim_idempotent.
  - by apply not_rejected_positive.
  - by apply truthy_string_not_nil.
  - by apply truthy_string_not_nil.
Qed.

Lemma handle_submitted_ok (s : Component) (e : event) :
  Forall submitted_ok (st_submitted s) ->
  Forall submitted_ok (st_submitted (exec (handle e) s)).
Proof.
  intros Hok. destruct e as [name value | today]; cbn [handle].
  - by rewrite exec_handleInputChange.
  - rewrite exec_handleSubmit.
    destruct (isValid (validateExpenseForm (st_formData s))) eqn:Hvalid;
      [| exact Hok].
    cbn [st_submitted]. apply Forall_app. split; [exact Hok |].
    apply Forall_singleton. by apply valid_record_ok.
Qed.

Lemma run_cons (e : event) (es : list event) (s : Component) :
  run (e :: es) s = run es (exec (handle e) s).
Proof. reflexivity. Qed.

Lemma reachable_run (es : list event) (s : Component) :
  reachable s -> reachable (run es s).
Proof.
  revert s. induction es as [| e es IH]; intros s Hs; [exact Hs |].
  rewrite run_cons. by apply IH, reachable_step.
Qed.

(** X1. Whatever the user did, every record the form has handed to
    [onSubmit] has a description that is not empty and has no white space
    at either end, an amount that is a positive Number (never NaN, zero or
    negative), and a category and a date that are not empty. *)
Theorem reachable_submitted_ok (s : Component) :
  reachable s -> Forall submitted_ok (st_submitted s).
Proof.
  induction 1 as [today | s e _ IH].
  - apply Forall_nil_2.
  - by apply handle_submitted_ok.
Qed.

Lemma reachable_submitted_ok_witness :
  let s := run [Change "description" (JS " Coffee ");
                Change "amount" (JS "4.50");
                Change "date" (JS "2024-01-15");
                Submit (JS "2024-03-09")]
             (initial_state (JS "2024-03-09")) in
  reachable s
  /\ st_submitted s
     = [{| exp_description := JS "Coffee";
           exp_amount := S754_finite false 5066549580791808 (-50);
           exp_category := JS "Food";
           exp_date := JS "2024-01-15" |}]
  /\ Forall submitted_ok (st_submitted s).
Proof.
  assert (reachable
            (run [Change "description" (JS " Coffee ");
                  Change "amount" (JS "4.50");
                  Change "date" (JS "2024-01-15");
                  Submit (JS "2024-03-09")]
               (initial_state (JS "2024-03-09")))) as Hreach.
  { apply reachable_run, reachable_initial. }
  split; [exact Hreach |]. split; [reflexivity |].
  exact (reachable_submitted_ok _ Hreach).
Defined.

(** ** More on the validator *)

(** X2. The description is reported as required exactly when it is empty
    or made of white space only, whatever the other fields hold. *)
Theorem description_error_iff_blank (data : ExpenseFormData) :
  errors (validateExpenseForm data) !! "description"%string
  = if is_blank (description data) then Some (JString description_message)
    else None.
Proof.
  rewrite validate_errors_lookup.
  change (rule_failed "description" data)
    with (negb (truthy_string (trim (description data)))).
  destruct (is_blank (description data)) eqn:Hblank.
  - by rewrite (proj2 (trim_nil_iff _) Hblank).
  - destruct (trim (description data)) eqn:Htrim; [| reflexivity].
    apply trim_nil_iff in Htrim. congruence.
Qed.

Lemma rule_failed_same_field (name : string) (data data' : ExpenseFormData) :
  get_field name data = get_field name data' ->
  rule_failed name data = rule_failed name data'.
Proof.
  unfold get_field, rule_failed.
  repeat (destruct (decide (name = _)) as [-> | ?]); try reflexivity;
    by intros [= ->].
Qed.

(** X3. The rules do not look across fields: two drafts that hold the same
    text in a field get the same entry for that field, whatever their other
    fields hold. *)
Theorem validate_field_independent
    (name : string) (data data' : ExpenseFormData) :
  get_field name data = get_field name data' ->
  errors (validateExpenseForm data) !! name
  = errors (validateExpenseForm data') !! name.
Proof.
  intros Hsame.
  by rewrite !validate_errors_lookup, (rule_failed_same_field _ _ _ Hsame).
Qed.

Lemma validate_field_independent_witness :
  let data := st_formData scenario_A in
  let data' := {| description := JS ""; amount := JS "4.50";
                  category := JS ""; date := JS "" |} in
  get_field "amount" data = get_field "amount" data'
  /\ errors (validateExpenseForm data) !! "amount"%string
     = errors (validateExpenseForm data') !! "amount"%string.
Proof.
  split; [reflexivity |].
  by apply (validate_field_independent "amount" (st_formData scenario_A)).
Defined.

(** ** Signed amounts *)

Lemma trimStart_blank_prefix (ws s : jsstring) :
  is_blank ws = true -> trimStart (ws ++ s) = trimStart s.
Proof.
  induction ws as [| c ws IH]; [reflexivity |]. cbn.
  intros [Hc Hws]%andb_true_iff. rewrite Hc. by apply IH.
Qed.

Lemma parseFloat_blank_prefix (ws s : jsstring) :
  is_blank ws = true -> parseFloat (ws ++ s) = parseFloat s.
Proof. intros Hws. unfold parseFloat. by rewrite trimStart_blank_prefix. Qed.

Lemma binary_round_aux_negative (mx ex : Z) (lx : location) :
  let x := binary_round_aux prec emax true mx ex lx in
  isNaN x || le_zero x = true.
Proof.
  unfold binary_round_aux.
  destruct (shr_fexp prec emax mx ex lx) as [mrs' e'].
  destruct (shr_fexp prec emax _ e' loc_Exact) as [mrs'' e''].
  destruct (shr_m mrs'') as [| m | m]; [reflexivity | | reflexivity].
  by destruct (e'' <=? emax - prec)%Z.
Qed.

Lemma round_decimal_negative (m e : Z) :
  isNaN (round_decimal true m e) || le_zero (round_decimal true m e) = true.
Proof.
  unfold round_decimal. destruct m as [| p | p]; try reflexivity.
  assert (forall e', (0 <= e')%Z ->
            let x := binary_normalize prec emax
                       (- (Z.pos p * 10 ^ e'))%Z 0 true in
            isNaN x || le_zero x = true) as Hnormalize.
  { intros e' He'. pose proof (Z.pow_pos_nonneg 10 e') as Hpow.
    destruct (Z.pos p * 10 ^ e')%Z as [| q | q] eqn:Hq;
      [reflexivity | | lia].
    unfold binary_normalize, Z.opp, binary_round.
    destruct (shl_align _ _ _) as [mz ez]. apply binary_round_aux_negative. }
  destruct e as [| k | k].
  - by apply Hnormalize.
  - by apply Hnormalize.
  - destruct (SFdiv_core_binary _ _ _ _ _ _) as [[q e'] l].
    apply binary_round_aux_negative.
Qed.

Lemma parse_unsigned_negative (s : jsstring) :
  isNaN (parse_unsigned true s) || le_zero (parse_unsigned true s) = true.
Proof.
  unfold parse_unsigned.
  destruct (starts_with (JS "Infinity") s); [reflexivity |].
  destruct (scan_digits s) as [ip r1].
  destruct r1 as [| c r2].
  - destruct ip; [reflexivity | apply round_decimal_negative].
  - destruct (c =? dot).
    + destruct (scan_digits r2) as [fp r3].
      destruct (ip ++ fp); [reflexivity | apply round_decimal_negative].
    + destruct ip; [reflexivity | apply round_decimal_negative].
Qed.

(** X4. An amount written with a minus sign is always rejected with the
    InvalidAmount message, whatever follows the sign: digits, zero, a
    fraction, an exponent, [Infinity] or nothing that parses. *)
Theorem minus_signed_amount_rejected
    (data : ExpenseFormData) (ws rest : jsstring) :
  is_blank ws = true ->
  amount data = ws ++ minus_sign :: rest ->
  get (errors (validateExpenseForm data)) "amount" = JString amount_message
  /\ isValid (validateExpenseForm data) = false.
Proof.
  intros Hws Hamount.
  assert (rule_failed "amount" data = true) as Hrule.
  { change (rule_failed "amount" data)
      with (isNaN (parseFloat (amount data))
            || le_zero (parseFloat (amount data))).
    rewrite Hamount, parseFloat_blank_prefix by done.
    apply parse_unsigned_negative. }
  split; [by rewrite validate_get, Hrule |].
  destruct (isValid (validateExpenseForm data)) eqn:Hvalid; [| reflexivity].
  by rewrite (valid_rule_passes data "amount" Hvalid) in Hrule.
Qed.

Lemma minus_signed_amount_rejected_witness :
  let data := {| description := JS "Refund"; amount := JS " -3.50";
                 category := JS "Other"; date := JS "2024-01-15" |} in
  (is_blank (JS " ") = true
   /\ amount data = JS " " ++ minus_sign :: JS "3.50")
  /\ get (errors (validateExpenseForm data)) "amount" = JString amount_message
  /\ isValid (validateExpenseForm data) = false.
Proof.
  split; [split; reflexivity |].
  apply (minus_signed_amount_rejected
           {| description := JS "Refund"; amount := JS " -3.50";
              category := JS "Other"; date := JS "2024-01-15" |}
           (JS " ") (JS "3.50")); reflexivity.
Defined.

(** ** How field changes compose *)

Lemma set_field_twice (name : string) (v1 v2 : jsstring) (data : ExpenseFormData) :
  set_field name v2 (set_field name v1 data) = set_field name v2 data.
Proof.
  unfold set_field.
  repeat (destruct (decide (name = _)) as [-> | ?]); reflexivity.
Qed.

Lemma set_field_commute (n1 n2 : string) (v1 v2 : jsstring)
    (data : ExpenseFormData) :
  n1 <> n2 ->
  set_field n1 v1 (set_field n2 v2 data) = set_field n2 v2 (set_field n1 v1 data).
Proof.
  intros Hne. unfold set_field.
  repeat (destruct (decide (n1 = _)) as [-> | ?]);
    repeat (destruct (decide (n2 = _)) as [-> | ?]);
    first [reflexivity | congruence].
Qed.

(** X5. The last edit of a field wins: changing the same field twice in a
    row leaves the form exactly as the second change alone would. *)
Theorem change_same_field_twice
    (s : Component) (name : string) (v1 v2 : jsstring) :
  exec (handleInputChange name v2) (exec (handleInputChange name v1) s)
  = exec (handleInputChange name v2) s.
Proof.
  rewrite !exec_handleInputChange. cbn [st_formData st_errors st_submitted].
  rewrite set_field_twice.
  destruct (truthy (get (st_errors s) name)) eqn:Ht.
  - by rewrite get_insert_eq.
  - by rewrite Ht.
Qed.

(** X6. Edits of two different fields can be made in either order: the
    draft, the errors and the sink calls end up the same. *)
Theorem change_different_fields_commute
    (s : Component) (n1 n2 : string) (v1 v2 : jsstring) :
  n1 <> n2 ->
  exec (handleInputChange n1 v1) (exec (handleInputChange n2 v2) s)
  = exec (handleInputChange n2 v2) (exec (handleInputChange n1 v1) s).
Proof.
  intros Hne. rewrite !exec_handleInputChange.
  cbn [st_formData st_errors st_submitted].
  rewrite (set_field_commute n1 n2) by done. f_equal.
  destruct (truthy (get (st_errors s) n1)) eqn:H1,
           (truthy (get (st_errors s) n2)) eqn:H2;
    rewrite ?get_insert_ne, ?H1, ?H2 by done; try reflexivity.
  by apply insert_insert_ne.
Qed.

Lemma change_different_fields_commute_witness :
  exec (handleInputChange "amount" (JS "7"))
    (exec (handleInputChange "description" (JS "Tea")) scenario_B)
  = exec (handleInputChange "description" (JS "Tea"))
      (exec (handleInputChange "amount" (JS "7")) scenario_B).
Proof.
  by apply (change_different_fields_commute
              scenario_B "amount" "description").
Defined.

(** X7. A field change validates nothing: it stores no message, not even
    when the new value breaks the field's rule. Every entry of the error
    object reads as before or reads [undefined], and the changed field
    shows no error. *)
Theorem change_adds_no_error
    (s : Component) (name : string) (value : jsstring) :
  let s' := exec (handleInputChange name value) s in
  (forall k, get (st_errors s') k = get (st_errors s) k
             \/ get (st_errors s') k = JUndefined)
  /\ truthy (get (st_errors s') name) = false.
Proof.
  intros s'. subst s'. rewrite exec_handleInputChange. cbn [st_errors].
  destruct (truthy (get (st_errors s) name)) eqn:Ht.
  - split; [| by rewrite get_insert_eq].
    intros k. destruct (decide (name = k)) as [<- | Hne].
    + right. apply get_insert_eq.
    + left. by apply get_insert_ne.
  - split; [by left | exact Ht].
Qed.

(** ** How submits compose *)

(** X8. A failed submit can be repeated without effect: submitting a draft
    that does not validate a second time, at any later moment, leaves the
    draft, the errors and the sink calls as the first submit left them. *)
Theorem failed_submit_idempotent (s : Component) (t1 t2 : jsstring) :
  isValid (validateExpenseForm (st_formData s)) = false ->
  exec (handleSubmit t2) (exec (handleSubmit t1) s)
  = exec (handleSubmit t1) s.
Proof.
  intros Hinvalid. rewrite (exec_handleSubmit s), Hinvalid.
  rewrite exec_handleSubmit. cbn [st_formData st_errors st_submitted].
  by rewrite Hinvalid.
Qed.

Lemma failed_submit_idempotent_witness :
  isValid (validateExpenseForm (st_formData scenario_B)) = false
  /\ exec (handleSubmit (JS "2024-03-10"))
       (exec (handleSubmit (JS "2024-03-09")) scenario_B)
     = exec (handleSubmit (JS "2024-03-09")) scenario_B.
Proof.
  split; [reflexivity |].
  by apply (failed_submit_idempotent scenario_B).
Defined.

Lemma initial_formData_invalid (today : jsstring) :
  isValid (validateExpenseForm (initial_formData today)) = false.
Proof.
  destruct (isValid (validateExpenseForm (initial_formData today))) eqn:Hv;
    [| reflexivity].
  by pose proof (valid_rule_passes _ "description" Hv).
Qed.

(** X9. The draft a successful submit leaves never validates, so a second
    submit right after it (a double click) does not reach the sink again:
    the one record stays the only new call, the draft stays reset, and the
    description and the amount are reported. *)
Theorem submit_twice_calls_sink_once (s : Component) (t1 t2 : jsstring) :
  isValid (validateExpenseForm (st_formData s)) = true ->
  let s2 := exec (handleSubmit t2) (exec (handleSubmit t1) s) in
  st_submitted s2
  = st_submitted s
    ++ [{| exp_description := trim (description (st_formData s));
           exp_amount := parseFloat (amount (st_formData s));
           exp_category := category (st_formData s);
           exp_date := date (st_formData s) |}]
  /\ st_formData s2 = initial_formData t1
  /\ get (st_errors s2) "description" = JString description_message
  /\ get (st_errors s2) "amount" = JString amount_message
  /\ get (st_errors s2) "category" = JUndefined.
Proof.
  intros Hvalid s2. subst s2.
  rewrite (exec_handleSubmit s), Hvalid, exec_handleSubmit.
  cbn [st_formData st_errors st_submitted].
  rewrite initial_formData_invalid. cbn [st_formData st_errors st_submitted].
  rewrite !validate_get. repeat split.
Qed.

Lemma submit_twice_calls_sink_once_witness :
  let s2 := exec (handleSubmit (JS "2024-03-09"))
              (exec (handleSubmit (JS "2024-03-09")) scenario_A) in
  isValid (validateExpenseForm (st_formData scenario_A)) = true
  /\ length (st_submitted s2) = 1%nat
  /\ st_formData s2 = initial_formData (JS "2024-03-09").
Proof.
  split; [reflexivity |].
  destruct (submit_twice_calls_sink_once
              scenario_A (JS "2024-03-09") (JS "2024-03-09") eq_refl)
    as (Hsub & Hform & _).
  split; [by rewrite Hsub | exact Hform].
Defined.

Lemma handle_submitted_grows (s : Component) (e : event) :
  exists new,
    st_submitted (exec (handle e) s) = st_submitted s ++ new
    /\ (length new <= if is_Submit e then 1 else 0)%nat.
Proof.
  destruct e as [name value | today]; cbn [handle is_Submit].
  - exists []. rewrite exec_handleInputChange. cbn. by rewrite app_nil_r.
  - rewrite exec_handleSubmit.
    destruct (isValid (validateExpenseForm (st_formData s))).
    + eexists. split; [reflexivity |]. cbn. lia.
    + exists []. cbn. rewrite app_nil_r. split; [reflexivity | lia].
Qed.

(** X10. The sink is called at most once for each submit event and never
    for a field change, and calls already made are never altered: after
    any run of events the list of calls is the old list followed by at
    most as many new records as the run has submits. *)
Theorem run_calls_sink_at_most_once_per_submit
    (es : list event) (s : Component) :
  exists new,
    st_submitted (run es s) = st_submitted s ++ new
    /\ (length new <= submits es)%nat.
Proof.
  revert s. induction es as [| e es IH]; intros s.
  - exists []. cbn. rewrite app_nil_r. split; [reflexivity | lia].
  - rewrite run_cons.
    destruct (handle_submitted_grows s e) as (new1 & Hnew1 & Hlen1).
    destruct (IH (exec (handle e) s)) as (new2 & Hnew2 & Hlen2).
    exists (new1 ++ new2). split.
    + by rewrite Hnew2, Hnew1, app_assoc.
    + rewrite length_app. unfold submits in *. cbn [List.filter].
      destruct (is_Submit e); cbn [length]; lia.
Qed.

(** ** The keys of the error object *)




(** ** From typing to the sink *)

(** X16. What the user types is what the sink gets: after the four fields
    are filled with values that pass their rules, a submit hands over
    exactly those values, the description trimmed and the amount parsed,
    clears the errors and resets the draft, whatever the form held before. *)
Theorem typed_values_are_submitted
    (s : Component) (vd va vc vt today : jsstring) :
  is_blank vd = false ->
  number_positive (parseFloat va) ->
  vc <> [] -> vt <> [] ->
  exec (handleSubmit today)
    (run [Change "description" vd; Change "amount" va;
          Change "category" vc; Change "date" vt] s)
  = {| st_formData := initial_formData today;
       st_errors := ∅;
       st_submitted :=
         st_submitted s
         ++ [{| exp_description := trim vd; exp_amount := parseFloat va;
                exp_category := vc; exp_date := vt |}] |}.
Proof.
  intros Hd Ha Hc Ht.
  unfold run. cbn [fold_left handle].
  rewrite exec_handleSubmit, !exec_handleInputChange.
  cbn [st_formData st_errors st_submitted].
  change (set_field "date" vt
            (set_field "category" vc
               (set_field "amount" va
                  (set_field "description" vd (st_formData s)))))
    with {| description := vd; amount := va; category := vc; date := vt |}.
  assert (isValid (validateExpenseForm
                     {| description := vd; amount := va;
                        category := vc; date := vt |}) = true) as ->;
    [| reflexivity].
  apply validate_valid_iff. intros name.
  unfold field_names. rewrite !elem_of_cons, elem_of_nil.
  intros [-> | [-> | [-> | [-> | []]]]].
  - change (negb (truthy_string (trim vd)) = false).
    destruct (trim vd) eqn:Htrim; [| reflexivity].
    apply trim_nil_iff in Htrim. congruence.
  - by apply positive_not_rejected.
  - by destruct vc.
  - by destruct vt.
Qed.

Lemma typed_values_are_submitted_witness :
  exec (handleSubmit (JS "2024-03-09"))
    (run [Change "description" (JS " Coffee "); Change "amount" (JS "4.50");
          Change "category" (JS "Food"); Change "date" (JS "2024-01-15")]
       scenario_B)
  = {| st_formData := initial_formData (JS "2024-03-09");
       st_errors := ∅;
       st_submitted :=
         [{| exp_description := JS "Coffee";
             exp_amount := S754_finite false 5066549580791808 (-50);
             exp_category := JS "Food"; exp_date := JS "2024-01-15" |}] |}.
Proof.
  apply (typed_values_are_submitted scenario_B
           (JS " Coffee ") (JS "4.50") (JS "Food") (JS "2024-01-15"));
    [reflexivity | | discriminate | discriminate].
  right. exists (9 # 2)%Q. split; [reflexivity | reflexivity].
Defined.

(** ** What the user sees *)

Lemma error_span_message (classes : list string) (name : string) :
  span_text <$> error_span classes (JString (message_of name))
  = Some (message_of name).
Proof. unfold message_of. repeat case_decide; reflexivity. Qed.

(** X13. After a submit that failed, the form still shows in each control
    what the user typed, and under each field the message of its rule
    exactly when that rule failed, and no message otherwise. *)
Theorem failed_submit_shows_failed_rules (s : Component) (today : jsstring) :
  isValid (validateExpenseForm (st_formData s)) = false ->
  let d := st_formData s in
  map shown (render (exec (handleSubmit today) s))
  = [ ("description"%string, description d, expected_message "description" d);
      ("amount"%string, amount d, expected_message "amount" d);
      ("category"%string, category d, expected_message "category" d);
      ("date"%string, date d, expected_message "date" d) ].
Proof.
  intros Hinvalid d. subst d. rewrite exec_handleSubmit, Hinvalid.
  unfold render, shown, expected_message.
  cbn [map st_formData st_errors fv_control fv_error ctl_name ctl_value].
  rewrite !validate_get.
  destruct (rule_failed "description" (st_formData s)),
           (rule_failed "amount" (st_formData s)),
           (rule_failed "category" (st_formData s)),
           (rule_failed "date" (st_formData s));
    rewrite ?error_span_message; reflexivity.
Qed.

Lemma failed_submit_shows_failed_rules_witness :
  let s := {| st_formData := {| description := JS "Bus"; amount := JS "abc";
                                category := JS "Transportation";
                                date := JS "2024-02-01" |};
              st_errors := ∅; st_submitted := [] |} in
  isValid (validateExpenseForm (st_formData s)) = false
  /\ map shown (render (exec (handleSubmit (JS "2024-03-09")) s))
     = [ ("description"%string, JS "Bus", None);
         ("amount"%string, JS "abc", Some amount_message);
         ("category"%string, JS "Transportation", None);
         ("date"%string, JS "2024-02-01", None) ].
Proof.
  split; [reflexivity |].
  by rewrite failed_submit_shows_failed_rules.
Defined.

(** X14. The invalid style of a control follows the description alone:
    after any submit, each of the four controls, the amount, the category
    and the date among them, carries the red border classes exactly when
    the description rule failed, whatever its own rule did. *)
Theorem controls_styled_by_description_rule (s : Component) (today : jsstring) :
  Forall
    (λ fv, ctl_classes (fv_control fv)
           = base_classes
             ++ (if rule_failed "description" (st_formData s)
                 then invalid_classes else normal_classes))
    (render (exec (handleSubmit today) s)).
Proof.
  assert (control_classes (st_errors (exec (handleSubmit today) s))
          = base_classes
            ++ (if rule_failed "description" (st_formData s)
                then invalid_classes else normal_classes)) as Hclasses.
  { unfold control_classes. f_equal. rewrite exec_handleSubmit.
    destruct (isValid (validateExpenseForm (st_formData s))) eqn:Hvalid;
      cbn [st_errors].
    - by rewrite (valid_rule_passes _ "description" Hvalid).
    - rewrite validate_get.
      by destruct (rule_failed "description" (st_formData s)). }
  unfold render. repeat apply Forall_cons_2; try exact Hclasses.
  apply Forall_nil_2.
Qed.

(** ** The category, through the select *)

Lemma offered_category (s : Component) (value : jsstring) :
  offered s (Change "category" value) -> value ∈ ExpenseCategory.
Proof.
  intros (fv & Hin & Hname & Hselect). unfold render in Hin.
  rewrite !elem_of_cons, elem_of_nil in Hin.
  destruct Hin as [-> | [-> | [-> | [-> | []]]]]; cbn in Hname;
    try discriminate.
  by apply Hselect.
Qed.

Lemma category_set_field_ne (name : string) (value : jsstring)
    (data : ExpenseFormData) :
  name <> "category"%string -> category (set_field name value data) = category data.
Proof.
  intros Hne. unfold set_field.
  repeat (destruct (decide (name = _)) as [-> | ?]);
    first [reflexivity | congruence].
Qed.

Lemma reachable_by_form_reachable (s : Component) :
  reachable_by_form s -> reachable s.
Proof.
  induction 1 as [today | s e _ IH _].
  - apply reachable_initial.
  - by apply reachable_step.
Qed.

Lemma by_form_category (s : Component) :
  reachable_by_form s -> category (st_formData s) ∈ ExpenseCategory.
Proof.
  induction 1 as [today | s e _ IH Hoffered].
  - cbn. apply (bool_decide_unpack _). reflexivity.
  - destruct e as [name value | today]; cbn [handle].
    + rewrite exec_handleInputChange. cbn [st_formData].
      destruct (decide (name = "category"%string)) as [-> | Hne].
      * by apply (offered_category s).
      * by rewrite category_set_field_ne.
    + rewrite exec_handleSubmit.
      destruct (isValid (validateExpenseForm (st_formData s)));
        cbn [st_formData]; [| exact IH].
      apply (bool_decide_unpack _). reflexivity.
Qed.

(** X12. Driven through its own controls, the form never holds a category
    outside the enumerated ones: the select delivers only the values of its
    options and the reset puts Food back. So the category is never empty,
    its rule never fails and no category error is ever stored. *)
Theorem by_form_category_always_enumerated (s : Component) :
  reachable_by_form s ->
  category (st_formData s) ∈ ExpenseCategory
  /\ rule_failed "category" (st_formData s) = false
  /\ spec_category_rule_failed (st_formData s) = false
  /\ get (st_errors s) "category" = JUndefined.
Proof.
  intros Hform. pose proof (by_form_category s Hform) as Hcat.
  assert (rule_failed "category" (st_formData s) = false) as Hrule.
  { change (negb (truthy_string (category (st_formData s))) = false).
    destruct (category (st_formData s)); [| reflexivity].
    exfalso. unfold ExpenseCategory in Hcat.
    rewrite !elem_of_cons, elem_of_nil in Hcat.
    by destruct Hcat as [? | [? | [? | [? | []]]]]. }
  split; [exact Hcat |]. split; [exact Hrule |]. split.
  - unfold spec_category_rule_failed.
    change (negb (truthy_string (category (st_formData s))))
      with (rule_failed "category" (st_formData s)).
    by rewrite Hrule, (bool_decide_eq_true_2 _ Hcat).
  - destruct (get (st_errors s) "category") as [| msg] eqn:Hget;
      [reflexivity |].
    apply reachable_by_form_reachable, reachable_errors_justified in Hform.
    destruct (Hform _ _ Hget) as [Hfail _]. congruence.
Qed.

Lemma by_form_category_always_enumerated_witness :
  let s := exec (handle (Submit (JS "2024-03-09")))
             (exec (handle (Change "category" (JS "Other")))
                (initial_state (JS "2024-03-09"))) in
  reachable_by_form s
  /\ category (st_formData s) = JS "Other"
  /\ get (st_errors s) "category" = JUndefined.
Proof.
  assert (reachable_by_form
            (exec (handle (Submit (JS "2024-03-09")))
               (exec (handle (Change "category" (JS "Other")))
                  (initial_state (JS "2024-03-09"))))) as Hform.
  { apply by_form_step; [| exact I].
    apply by_form_step; [apply by_form_initial |].
    eexists. split; [do 2 apply list_elem_of_further; apply list_elem_of_here |].
    split; [reflexivity |]. intros _.
    apply (bool_decide_unpack _). reflexivity. }
  split; [exact Hform |]. split; [reflexivity |].
  apply (by_form_category_always_enumerated _ Hform).
Defined.

(** ** The expense card *)

(** X15. In this version of the card the [highlighted] prop never gives
    the article the class [expense-card--highlighted]: given, absent, true
    or false, the class list is [expense-card], the text of the boolean and
    three stray tokens of the conditional that was left outside the
    braces. *)
Theorem ExpenseCard_never_highlighted (highlighted : option bool) :
  classList (ExpenseCard_className highlighted)
  = ["expense-card"; boolean_toString (default false highlighted); "?";
     "'expense-card--highlighted':"; "''"]%string
  /\ bool_decide ("expense-card--highlighted"%string
                  ∈ classList (ExpenseCard_className highlighted)) = false.
Proof. by destruct highlighted as [[|] |]. Qed.
